(** * zerver/lib/create_user.py: account construction helpers

    A shallow embedding of the four functions of the module
    ([random_api_key], [copy_user_settings], [create_user_profile] and
    [create_user]) together with the small part of their environment
    they touch: Python objects as attribute dictionaries on a heap, the
    relational store behind the ORM, the clock and the operating
    system's random byte source. *)

From stdpp Require Import gmap strings list fin_maps.
From Stdlib Require Import ZArith NArith Strings.Byte Strings.Ascii.

Local Open Scope Z_scope.
Local Open Scope string_scope.

(** ** Values and objects *)

(** A Python object is identified by a heap location; two names for the
    same object are the same location. *)
Abbreviation loc := positive.

(** What [set_password] leaves in the [password] field: Django's
    [make_password None] produces a marker no raw password matches,
    anything else the hash of the raw password. *)
Inductive PasswordHash :=
  | UnusablePassword
  | HashOf (raw : string).

Definition make_password (raw : option string) : PasswordHash :=
  match raw with
  | None => UnusablePassword
  | Some p => HashOf p
  end.

Definition is_password_usable (h : PasswordHash) : bool :=
  match h with
  | UnusablePassword => false
  | HashOf _ => true
  end.

(** Only two attributes of a [Realm] are read by this module. *)
Record Realm := {
  realm_id : Z;
  default_language : string;
  default_twenty_four_hour_time : bool
}.

Inductive Value :=
  | VNone
  | VBool (b : bool)
  | VInt (n : Z)
  | VStr (s : string)
  | VTime (t : Z)
  | VPassword (h : PasswordHash)
  | VRealm (r : Realm)
  | VRef (l : loc).

(** The attribute dictionary of one object. *)
Abbreviation Attrs := (gmap string Value).

Definition of_bool (b : bool) : Value := VBool b.
Definition of_str (s : string) : Value := VStr s.
Definition of_opt_bool (o : option bool) : Value := from_option VBool VNone o.
Definition of_opt_int (o : option Z) : Value := from_option VInt VNone o.
Definition of_opt_str (o : option string) : Value := from_option VStr VNone o.
Definition of_opt_ref (o : option loc) : Value := from_option VRef VNone o.

(** Python truth value of an [Optional[int]]. *)
Definition truthy (o : option Z) : bool :=
  match o with
  | None => false
  | Some n => negb (n =? 0)%Z
  end.

(** ** The relational store *)

(** Modelled from the spec: the kinds of [Recipient] of zerver/models.py
    ("addressable message target (personal, stream, or group)"). *)
Inductive RecipientType := PERSONAL | STREAM | HUDDLE.

#[global] Instance RecipientType_eq_dec : EqDecision RecipientType.
Proof. solve_decision. Defined.

Record Recipient := {
  recipient_id : Z;
  type_id : Z;
  type : RecipientType
}.

Record Subscription := {
  subscription_id : Z;
  user_profile_id : Z;
  subscribed_recipient_id : Z
}.

(** Each table has its auto-increment sequence. User rows are keyed by
    primary key; the other two tables keep their rows in insertion
    order, so that rows can be counted. *)
Record Database := {
  user_profiles : gmap Z (gmap string Value);
  user_profile_seq : Z;
  recipients : list Recipient;
  recipient_seq : Z;
  subscriptions : list Subscription;
  subscription_seq : Z
}.

(** The writes this module issues. *)
Inductive Write :=
  | InsertUserProfile (row : gmap string Value)
  | UpdateUserProfile (pk : Z) (row : gmap string Value)
  | InsertRecipient (rtype_id : Z) (rtype : RecipientType)
  | InsertSubscription (user_id rcpt_id : Z).

(** Modelled from the spec: the constraints of the schema of
    zerver/models.py. A Recipient is "tied 1:1" to what it addresses and
    a Subscription is "a join entity linking a UserProfile to a
    Recipient": no two Recipients share type and type_id, no two
    Subscriptions share user and recipient. *)
Definition unique_rows (d : Database) (wr : Write) : bool :=
  match wr with
  | InsertRecipient tid ty =>
      negb (existsb (fun r => bool_decide (type r = ty /\ type_id r = tid))
              (recipients d))
  | InsertSubscription uid rid =>
      negb (existsb (fun s => bool_decide (user_profile_id s = uid
                                           /\ subscribed_recipient_id s = rid))
              (subscriptions d))
  | InsertUserProfile _ | UpdateUserProfile _ _ => true
  end.

(** ** The world a call runs in *)

Record World := {
  heap : gmap loc (gmap string Value);
  db : Database;
  clock : Z;
  entropy : nat -> byte;
  consumed : nat
}.

Definition with_heap (h : gmap loc (gmap string Value)) (w : World) : World :=
  {| heap := h; db := db w; clock := clock w;
     entropy := entropy w; consumed := consumed w |}.

Definition with_db (d : Database) (w : World) : World :=
  {| heap := heap w; db := d; clock := clock w;
     entropy := entropy w; consumed := consumed w |}.

Definition with_clock (c : Z) (w : World) : World :=
  {| heap := heap w; db := db w; clock := c;
     entropy := entropy w; consumed := consumed w |}.

Definition with_consumed (n : nat) (w : World) : World :=
  {| heap := heap w; db := db w; clock := clock w;
     entropy := entropy w; consumed := n |}.

(** ** Computations that may raise *)

Inductive Exn :=
  | AttributeError (name : string)
  | IndexError
  | IntegrityError.

Inductive Outcome (A : Type) :=
  | Return (a : A)
  | Raise (e : Exn).
Arguments Return {A} a.
Arguments Raise {A} e.

(** A raised exception keeps the world as it was when it was raised:
    nothing is undone. *)
Definition M (A : Type) : Type := World -> Outcome A * World.

#[global] Instance M_ret : MRet M := fun A a w => (Return a, w).

#[global] Instance M_bind : MBind M := fun A B f m w =>
  match m w with
  | (Return a, w') => f a w'
  | (Raise e, w') => (Raise e, w')
  end.

Definition raise {A} (e : Exn) : M A := fun w => (Raise e, w).

(** [for x in xs: body x] *)
Fixpoint for_each {A} (xs : list A) (body : A -> M unit) : M unit :=
  match xs with
  | [] => mret tt
  | x :: rest => body x ≫= fun _ => for_each rest body
  end.

(** ** Object primitives *)

Definition new_object (attrs : gmap string Value) : M loc := fun w =>
  let l := fresh (dom (heap w)) in
  (Return l, with_heap (<[l := attrs]> (heap w)) w).

(** The attributes of the object at [l]; a location that was never
    allocated has none. *)
Definition attrs_of (w : World) (l : loc) : gmap string Value :=
  default ∅ (heap w !! l).

Definition attr_of (w : World) (l : loc) (name : string) : option Value :=
  attrs_of w l !! name.

Definition getattr (l : loc) (name : string) : M Value := fun w =>
  match attr_of w l name with
  | Some v => (Return v, w)
  | None => (Raise (AttributeError name), w)
  end.

(** The world after [name] of the object at [l] was bound to [v]. *)
Definition store_attr (l : loc) (name : string) (v : Value) (w : World) : World :=
  with_heap (<[l := <[name := v]> (attrs_of w l)]> (heap w)) w.

Definition setattr (l : loc) (name : string) (v : Value) : M unit := fun w =>
  (Return tt, store_attr l name v w).

(** ** Clock and randomness *)

(** [django.utils.timezone.now]: time moves on between two readings. *)
Definition timezone_now : M Z := fun w =>
  (Return (clock w), with_clock (clock w + 1) w).

(** [os.urandom n] *)
Definition urandom (n : nat) : M (list byte) := fun w =>
  (Return (entropy w <$> seq (consumed w) n), with_consumed (consumed w + n) w).

(** ** base64 *)

Definition ascii_lowercase : string := "abcdefghijklmnopqrstuvwxyz".
Definition ascii_uppercase : string := "ABCDEFGHIJKLMNOPQRSTUVWXYZ".
Definition digits : string := "0123456789".
Definition ascii_letters : string := ascii_lowercase ++ ascii_uppercase.

Definition b64_alphabet : string :=
  ascii_uppercase ++ ascii_lowercase ++ digits ++ "+/".

Definition b64_symbol (x : N) : ascii :=
  default "="%char (String.get (N.to_nat (N.land x 63)) b64_alphabet).

Definition b64_pad : ascii := "="%char.

(** [binascii.b2a_base64(data, newline=False)]: three bytes make four
    symbols; a final group of one or two bytes is padded. *)
Fixpoint b2a_base64 (data : list byte) : list ascii :=
  match data with
  | [] => []
  | [a] =>
      let a := Byte.to_N a in
      [b64_symbol (N.shiftr a 2); b64_symbol (N.shiftl (N.land a 3) 4);
       b64_pad; b64_pad]
  | [a; b] =>
      let a := Byte.to_N a in
      let b := Byte.to_N b in
      [b64_symbol (N.shiftr a 2);
       b64_symbol (N.lor (N.shiftl (N.land a 3) 4) (N.shiftr b 4));
       b64_symbol (N.shiftl (N.land b 15) 2);
       b64_pad]
  | a :: b :: c :: rest =>
      let a := Byte.to_N a in
      let b := Byte.to_N b in
      let c := Byte.to_N c in
      b64_symbol (N.shiftr a 2)
      :: b64_symbol (N.lor (N.shiftl (N.land a 3) 4) (N.shiftr b 4))
      :: b64_symbol (N.lor (N.shiftl (N.land b 15) 2) (N.shiftr c 6))
      :: b64_symbol c
      :: b2a_base64 rest
  end.

(** [encoded.translate(bytes.maketrans(b'+/', altchars))] on one symbol. *)
Definition translate_altchars (alt0 alt1 : ascii) (c : ascii) : ascii :=
  if Ascii.eqb c "+" then alt0
  else if Ascii.eqb c "/" then alt1
  else c.

(** [base64.b64encode(s, altchars)] followed by [.decode("utf-8")];
    [altchars] must have length two. *)
Definition b64encode (s : list byte) (alt0 alt1 : ascii) : string :=
  String.string_of_list_ascii (translate_altchars alt0 alt1 <$> b2a_base64 s).

(** Membership in a string used as a set of characters. *)
Definition char_in (cs : string) (c : ascii) : bool :=
  existsb (Ascii.eqb c) (String.list_ascii_of_string cs).

(** Well-formed base64 text (RFC 4648, section 4): groups of four
    symbols of the alphabet, the last of which may end in padding. *)
Fixpoint base64_wellformed (cs : list ascii) : bool :=
  match cs with
  | [] => true
  | [a; b; c; d] =>
      char_in b64_alphabet a && char_in b64_alphabet b
      && ((char_in b64_alphabet c
           && (char_in b64_alphabet d || Ascii.eqb d b64_pad))
          || (Ascii.eqb c b64_pad && Ascii.eqb d b64_pad))
  | a :: b :: c :: d :: rest =>
      char_in b64_alphabet a && char_in b64_alphabet b
      && char_in b64_alphabet c && char_in b64_alphabet d
      && base64_wellformed rest
  | _ => false
  end.

Definition valid_base64 (s : string) : bool :=
  base64_wellformed (String.list_ascii_of_string s).

(** ** random_api_key *)

(** [s[i]] on a string. *)
Definition str_index (s : string) (i : nat) : M ascii :=
  match String.get i s with
  | Some c => mret c
  | None => raise IndexError
  end.

Definition choices : string := ascii_letters ++ digits.

(** [choices[ord(os.urandom(1)) % 62]] *)
Definition random_choice : M ascii :=
  bs ← urandom 1;
  match bs with
  | [b] => str_index choices (N.to_nat (Byte.to_N b mod 62))
  | _ => raise IndexError
  end.

Definition random_api_key : M string :=
  alt0 ← random_choice;
  alt1 ← random_choice;
  payload ← urandom 24;
  mret (b64encode payload alt0 alt1).

(** The character [random_choice] picks for a given random byte. *)
Definition choice_of (b : byte) : ascii :=
  default "a"%char (String.get (N.to_nat (Byte.to_N b mod 62)) choices).

(** The 24 bytes [random_api_key] encodes, and its result, in a given
    world. *)
Definition api_key_payload (w : World) : list byte :=
  entropy w <$> seq (consumed w + 2) 24.

Definition api_key_of (w : World) : string :=
  b64encode (api_key_payload w)
    (choice_of (entropy w (consumed w)))
    (choice_of (entropy w (consumed w + 1))).

(** What a computation may have changed: only the heap, there only the
    object at [tgt], and of its attributes only those in [names]. *)
Definition only_target_changed (tgt : loc) (names : list string)
    (w w' : World) : Prop :=
  db w' = db w /\ clock w' = clock w
  /\ entropy w' = entropy w /\ consumed w' = consumed w
  /\ (forall l, l ≠ tgt -> heap w' !! l = heap w !! l)
  /\ (forall n, n ∉ names -> attr_of w' tgt n = attr_of w tgt n).

(** The position of a character in a list of characters (its length
    when absent), and the sextet a base64 symbol stands for. *)
Fixpoint index_of (c : ascii) (cs : list ascii) : nat :=
  match cs with
  | [] => 0
  | x :: rest => if Ascii.eqb c x then 0 else S (index_of c rest)
  end.

Definition sextet_of (c : ascii) : N :=
  N.of_nat (index_of c (String.list_ascii_of_string b64_alphabet)).

(** A 24-byte payload: the given byte followed by zeros. *)
Definition payload_from (b : byte) : list byte := b :: replicate 23 x00.

(** ** What the module takes from zerver.models and Django

    [zerver/models.py] and Django are not part of this development.
    The tables of setting names, the defaults the model declares for
    its fields, the two class constants, Django's email normaliser and
    the integrity constraints of the schema are parameters. *)
Class Models := {
  property_types : list string;
  notification_setting_types : list string;
  field_defaults : gmap string Value;
  TUTORIAL_WAITING : string;
  AVATAR_FROM_GRAVATAR : string;
  normalize_email : string -> string;
  constraints_hold : Database -> Write -> bool
}.

(** ** The ORM *)

Definition insert_user_profile (pk : Z) (row : gmap string Value)
    (d : Database) : Database :=
  {| user_profiles := <[pk := row]> (user_profiles d);
     user_profile_seq := user_profile_seq d + 1;
     recipients := recipients d;
     recipient_seq := recipient_seq d;
     subscriptions := subscriptions d;
     subscription_seq := subscription_seq d |}.

Definition update_user_profile (pk : Z) (row : gmap string Value)
    (d : Database) : Database :=
  {| user_profiles := <[pk := row]> (user_profiles d);
     user_profile_seq := user_profile_seq d;
     recipients := recipients d;
     recipient_seq := recipient_seq d;
     subscriptions := subscriptions d;
     subscription_seq := subscription_seq d |}.

Definition insert_recipient (r : Recipient) (d : Database) : Database :=
  {| user_profiles := user_profiles d;
     user_profile_seq := user_profile_seq d;
     recipients := recipients d ++ [r];
     recipient_seq := recipient_seq d + 1;
     subscriptions := subscriptions d;
     subscription_seq := subscription_seq d |}.

Definition insert_subscription (s : Subscription) (d : Database) : Database :=
  {| user_profiles := user_profiles d;
     user_profile_seq := user_profile_seq d;
     recipients := recipients d;
     recipient_seq := recipient_seq d;
     subscriptions := subscriptions d ++ [s];
     subscription_seq := subscription_seq d + 1 |}.

Section CreateUser.
Context {models : Models}.

(** The constructor [UserProfile] with keyword arguments: every field not given takes the default the
    model declares; the primary key is unset until the first save. *)
Definition UserProfile_new (kwargs : gmap string Value) : M loc :=
  new_object (<["id" := VNone]> (kwargs ∪ field_defaults)).

(** [user_profile.set_password(raw)]. Django draws the salt of the hash
    (or the suffix of the unusable marker) from the system's random
    source; the draw is left out here, so nothing below speaks of
    where in the byte stream the API key that follows is taken. *)
Definition set_password (user_profile : loc) (raw : option string) : M unit :=
  setattr user_profile "password" (VPassword (make_password raw)).

(** [user_profile.save()]: an object without primary key is inserted
    under the next value of the sequence, which becomes its [id]; an
    object with one replaces the row of that key. A write the schema
    rejects raises and changes nothing. *)
Definition save (user_profile : loc) : M unit := fun w =>
  let row := attrs_of w user_profile in
  match row !! "id" with
  | Some (VInt pk) =>
      if constraints_hold (db w) (UpdateUserProfile pk row)
      then (Return tt, with_db (update_user_profile pk row (db w)) w)
      else (Raise IntegrityError, w)
  | _ =>
      let pk := user_profile_seq (db w) in
      let saved := <["id" := VInt pk]> row in
      if constraints_hold (db w) (InsertUserProfile row)
         && bool_decide (user_profiles (db w) !! pk = None)
      then (Return tt,
            with_heap (<[user_profile := saved]> (heap w))
              (with_db (insert_user_profile pk saved (db w)) w))
      else (Raise IntegrityError, w)
  end.

(** [Recipient.objects.create(type_id=..., type=...)]; a [type_id] that
    is not an integer violates the column's NOT NULL constraint. *)
Definition Recipient_objects_create (rtype_id : Value) (rtype : RecipientType)
    : M Recipient := fun w =>
  match rtype_id with
  | VInt tid =>
      if constraints_hold (db w) (InsertRecipient tid rtype)
      then
        let r := {| recipient_id := recipient_seq (db w);
                    type_id := tid; type := rtype |} in
        (Return r, with_db (insert_recipient r (db w)) w)
      else (Raise IntegrityError, w)
  | _ => (Raise IntegrityError, w)
  end.

(** [Subscription.objects.create(user_profile=..., recipient=...)]: the
    row stores the primary keys of the two objects. *)
Definition Subscription_objects_create (user_profile : loc)
    (recipient : Recipient) : M Subscription :=
  pk ← getattr user_profile "id";
  match pk with
  | VInt uid => fun w =>
      if constraints_hold (db w) (InsertSubscription uid (recipient_id recipient))
      then
        let s := {| subscription_id := subscription_seq (db w);
                    user_profile_id := uid;
                    subscribed_recipient_id := recipient_id recipient |} in
        (Return s, with_db (insert_subscription s (db w)) w)
      else (Raise IntegrityError, w)
  | _ => raise IntegrityError
  end.

(** ** copy_user_settings *)

Definition copy_setting (source_profile target_profile : loc)
    (settings_name : string) : M unit :=
  value ← getattr source_profile settings_name;
  setattr target_profile settings_name value.

Definition copy_user_settings (source_profile target_profile : loc) : M unit :=
  for_each property_types (copy_setting source_profile target_profile);;
  for_each notification_setting_types (copy_setting source_profile target_profile);;
  full_name ← getattr source_profile "full_name";
  setattr target_profile "full_name" full_name.

(** The names [copy_user_settings] reads and writes, in this order. *)
Definition copied_names : list string :=
  property_types ++ notification_setting_types ++ ["full_name"].

(** A name that is in neither table of settings. *)
Definition not_a_setting (n : string) : Prop :=
  (n ∉ property_types) /\ (n ∉ notification_setting_types).

(** ** create_user_profile *)

(** [ujson.dumps([])] *)
Definition ujson_dumps_empty_list : string := "[]".

Definition create_user_profile (realm : Realm) (email : string)
    (password : option string) (active : bool) (bot_type : option Z)
    (full_name short_name : string) (bot_owner : option loc)
    (is_mirror_dummy : bool) (tos_version : option string)
    (timezone : option string) (tutorial_status : option string)
    (enter_sends : bool) : M loc :=
  now ← timezone_now;
  let email := normalize_email email in
  user_profile ← UserProfile_new (list_to_map [
    ("email", VStr email); ("is_staff", VBool false); ("is_active", VBool active);
    ("full_name", VStr full_name); ("short_name", VStr short_name);
    ("last_login", VTime now); ("date_joined", VTime now); ("realm", VRealm realm);
    ("pointer", VInt (-1)); ("is_bot", VBool (truthy bot_type));
    ("bot_type", of_opt_int bot_type);
    ("bot_owner", of_opt_ref bot_owner); ("is_mirror_dummy", VBool is_mirror_dummy);
    ("tos_version", of_opt_str tos_version); ("timezone", of_opt_str timezone);
    ("tutorial_status", of_opt_str tutorial_status);
    ("enter_sends", VBool enter_sends);
    ("onboarding_steps", VStr ujson_dumps_empty_list);
    ("default_language", VStr (default_language realm));
    ("twenty_four_hour_time", VBool (default_twenty_four_hour_time realm))]);
  let password := if truthy bot_type || negb active then None else password in
  set_password user_profile password;;
  api_key ← random_api_key;
  setattr user_profile "api_key" (VStr api_key);;
  mret user_profile.

(** The attributes of the object [create_user_profile] returns, given
    the time and the API key it drew. *)
Definition created_profile (realm : Realm) (email : string)
    (password : option string) (active : bool) (bot_type : option Z)
    (full_name short_name : string) (bot_owner : option loc)
    (is_mirror_dummy : bool) (tos_version : option string)
    (timezone : option string) (tutorial_status : option string)
    (enter_sends : bool) (now : Z) (api_key : string) : gmap string Value :=
  <["api_key" := VStr api_key]> (
  <["password" := VPassword (make_password
                    (if truthy bot_type || negb active then None else password))]> (
  <["id" := VNone]> (
  list_to_map [
    ("email", VStr (normalize_email email)); ("is_staff", VBool false);
    ("is_active", VBool active);
    ("full_name", VStr full_name); ("short_name", VStr short_name);
    ("last_login", VTime now); ("date_joined", VTime now); ("realm", VRealm realm);
    ("pointer", VInt (-1)); ("is_bot", VBool (truthy bot_type));
    ("bot_type", of_opt_int bot_type);
    ("bot_owner", of_opt_ref bot_owner); ("is_mirror_dummy", VBool is_mirror_dummy);
    ("tos_version", of_opt_str tos_version); ("timezone", of_opt_str timezone);
    ("tutorial_status", of_opt_str tutorial_status);
    ("enter_sends", VBool enter_sends);
    ("onboarding_steps", VStr ujson_dumps_empty_list);
    ("default_language", VStr (default_language realm));
    ("twenty_four_hour_time", VBool (default_twenty_four_hour_time realm))]
  ∪ field_defaults))).

(** ** create_user *)

Definition create_user (email : string) (password : option string)
    (realm : Realm) (full_name short_name : string) (active : bool)
    (is_realm_admin : bool) (bot_type : option Z) (bot_owner : option loc)
    (tos_version : option string) (timezone : string) (avatar_source : string)
    (is_mirror_dummy : bool) (default_sending_stream : option loc)
    (default_events_register_stream : option loc)
    (default_all_public_streams : option bool)
    (source_profile : option loc) : M loc :=
  user_profile ← create_user_profile realm email password active bot_type
                   full_name short_name bot_owner
                   is_mirror_dummy tos_version (Some timezone)
                   (Some TUTORIAL_WAITING) false;
  setattr user_profile "is_realm_admin" (VBool is_realm_admin);;
  setattr user_profile "avatar_source" (VStr avatar_source);;
  setattr user_profile "timezone" (VStr timezone);;
  setattr user_profile "default_sending_stream" (of_opt_ref default_sending_stream);;
  setattr user_profile "default_events_register_stream"
    (of_opt_ref default_events_register_stream);;
  match default_all_public_streams with
  | Some flag => setattr user_profile "default_all_public_streams" (VBool flag)
  | None => mret tt
  end;;
  match source_profile with
  | Some source => copy_user_settings source user_profile
  | None => mret tt
  end;;
  save user_profile;;
  pk ← getattr user_profile "id";
  recipient ← Recipient_objects_create pk PERSONAL;
  Subscription_objects_create user_profile recipient;;
  mret user_profile.

(** The last statements of [create_user], from [user_profile.save()]
    on. *)
Definition persist (user_profile : loc) : M loc :=
  save user_profile;;
  pk ← getattr user_profile "id";
  recipient ← Recipient_objects_create pk PERSONAL;
  Subscription_objects_create user_profile recipient;;
  mret user_profile.

(** The attributes of the new object when [create_user] reaches the
    test of [source_profile]. *)
Definition prepared_profile (email : string) (password : option string)
    (realm : Realm) (full_name short_name : string) (active : bool)
    (is_realm_admin : bool) (bot_type : option Z) (bot_owner : option loc)
    (tos_version : option string) (timezone : string) (avatar_source : string)
    (is_mirror_dummy : bool) (default_sending_stream : option loc)
    (default_events_register_stream : option loc)
    (default_all_public_streams : option bool)
    (now : Z) (api_key : string) : gmap string Value :=
  let assigned :=
    <["default_events_register_stream" :=
        of_opt_ref default_events_register_stream]> (
    <["default_sending_stream" := of_opt_ref default_sending_stream]> (
    <["timezone" := VStr timezone]> (
    <["avatar_source" := VStr avatar_source]> (
    <["is_realm_admin" := VBool is_realm_admin]> (
    created_profile realm email password active bot_type full_name
      short_name bot_owner is_mirror_dummy tos_version (Some timezone)
      (Some TUTORIAL_WAITING) false now api_key))))) in
  match default_all_public_streams with
  | Some flag => <["default_all_public_streams" := VBool flag]> assigned
  | None => assigned
  end.

(** The world at that point: one new object, one reading of the clock,
    26 random bytes drawn. *)
Definition prepared_world (attrs : gmap string Value) (w : World) : World :=
  {| heap := <[fresh (dom (heap w)) := attrs]> (heap w);
     db := db w;
     clock := clock w + 1;
     entropy := entropy w;
     consumed := consumed w + 26 |}.

(** The three writes of [persist], applied to the world [w] in which
    it starts: the row saved for the object at [l], the personal
    recipient, the subscription, and the database after each. *)
Definition saved_row (l : loc) (w : World) : gmap string Value :=
  <["id" := VInt (user_profile_seq (db w))]> (attrs_of w l).

Definition personal_recipient (d : Database) : Recipient :=
  {| recipient_id := recipient_seq d;
     type_id := user_profile_seq d;
     type := PERSONAL |}.

Definition own_subscription (d : Database) : Subscription :=
  {| subscription_id := subscription_seq d;
     user_profile_id := user_profile_seq d;
     subscribed_recipient_id := recipient_seq d |}.

Definition db_after_save (l : loc) (w : World) : Database :=
  insert_user_profile (user_profile_seq (db w)) (saved_row l w) (db w).

Definition db_after_recipient (l : loc) (w : World) : Database :=
  insert_recipient (personal_recipient (db w)) (db_after_save l w).

Definition db_after_subscription (l : loc) (w : World) : Database :=
  insert_subscription (own_subscription (db w)) (db_after_recipient l w).

Definition saved_world (l : loc) (d : Database) (w : World) : World :=
  with_heap (<[l := saved_row l w]> (heap w)) (with_db d w).

(** Every identifier a row stores or refers to was handed out by the
    sequence of its table. *)
Definition sequences_ahead (d : Database) : Prop :=
  map_Forall (fun pk _ => pk < user_profile_seq d) (user_profiles d)
  /\ Forall (fun r => recipient_id r < recipient_seq d
                      /\ (type r = PERSONAL -> type_id r < user_profile_seq d))
            (recipients d)
  /\ Forall (fun s => subscription_id s < subscription_seq d
                      /\ user_profile_id s < user_profile_seq d
                      /\ subscribed_recipient_id s < recipient_seq d)
            (subscriptions d).

#[global] Instance sequences_ahead_dec (d : Database) : Decision (sequences_ahead d).
Proof. unfold sequences_ahead. apply _. Defined.

(** The schema enforces at least the uniqueness of personal Recipients
    and of Subscriptions. *)
Definition enforces_uniqueness : Prop :=
  forall d wr, constraints_hold d wr = true -> unique_rows d wr = true.

(** Counting rows. *)
Definition personal_recipients_of (pk : Z) (d : Database) : list Recipient :=
  filter (fun r => type r = PERSONAL /\ type_id r = pk) (recipients d).

Definition subscriptions_linking (pk rid : Z) (d : Database) : list Subscription :=
  filter (fun s => user_profile_id s = pk /\ subscribed_recipient_id s = rid)
         (subscriptions d).

End CreateUser.

(** ** A worked instance *)

(** Python's [str.strip] and [str.lower] on ASCII text. *)
Definition is_space (c : ascii) : bool :=
  let n := nat_of_ascii c in
  ((n =? 32) || ((9 <=? n) && (n <=? 13)) || ((28 <=? n) && (n <=? 31)))%nat.

Definition lower (c : ascii) : ascii :=
  let n := nat_of_ascii c in
  if ((65 <=? n) && (n <=? 90))%nat then ascii_of_nat (n + 32) else c.

Fixpoint lstrip (cs : list ascii) : list ascii :=
  match cs with
  | c :: rest => if is_space c then lstrip rest else cs
  | [] => []
  end.

Definition strip (cs : list ascii) : list ascii :=
  rev (lstrip (rev (lstrip cs))).

(** [cs.rsplit('@', 1)] when it yields two parts. *)
Fixpoint rsplit_at (cs : list ascii) : option (list ascii * list ascii) :=
  match cs with
  | [] => None
  | c :: rest =>
      match rsplit_at rest with
      | Some (name, domain) => Some (c :: name, domain)
      | None => if Ascii.eqb c "@" then Some ([], rest) else None
      end
  end.

(** Django's [normalize_email] on ASCII text: an address with an '@' is
    stripped and the part after its last '@' put in lower case; any
    other text is returned as it is. *)
Definition django_normalize_email (email : string) : string :=
  match rsplit_at (strip (String.list_ascii_of_string email)) with
  | Some (name, domain) =>
      String.string_of_list_ascii (name ++ "@"%char :: (lower <$> domain))
  | None => email
  end.

Definition example_models : Models := {|
  property_types := ["default_language"; "timezone"; "twenty_four_hour_time"];
  notification_setting_types := ["enable_desktop_notifications"; "enable_sounds"];
  field_defaults := list_to_map [
    ("is_realm_admin", VBool false); ("avatar_source", VStr "G");
    ("default_sending_stream", VNone); ("default_events_register_stream", VNone);
    ("default_all_public_streams", VBool false);
    ("enable_desktop_notifications", VBool true); ("enable_sounds", VBool true)];
  TUTORIAL_WAITING := "W";
  AVATAR_FROM_GRAVATAR := "G";
  normalize_email := django_normalize_email;
  constraints_hold := unique_rows
|}.

Definition example_realm : Realm :=
  {| realm_id := 1; default_language := "en";
     default_twenty_four_hour_time := false |}.

(** An existing account, its personal Recipient and its Subscription. *)
Definition iago : gmap string Value := list_to_map [
  ("id", VInt 1); ("email", VStr "iago@zulip.com"); ("full_name", VStr "Iago");
  ("default_language", VStr "de"); ("timezone", VStr "Europe/Berlin");
  ("twenty_four_hour_time", VBool true);
  ("enable_desktop_notifications", VBool false); ("enable_sounds", VBool false);
  ("default_all_public_streams", VBool false)].

Definition example_db : Database :=
  {| user_profiles := {[ 1 := iago ]};
     user_profile_seq := 2;
     recipients := [ {| recipient_id := 1; type_id := 1; type := PERSONAL |} ];
     recipient_seq := 2;
     subscriptions := [ {| subscription_id := 1; user_profile_id := 1;
                           subscribed_recipient_id := 1 |} ];
     subscription_seq := 2 |}.

Definition example_entropy (n : nat) : byte :=
  default x00 (Byte.of_N (N.of_nat (7 * n + 3) mod 256)).

Definition example_world : World :=
  {| heap := {[ 1%positive := iago ]};
     db := example_db;
     clock := 1000;
     entropy := example_entropy;
     consumed := 0 |}.

(** A second account in memory, to copy settings to. *)
Definition hamlet : gmap string Value := list_to_map [
  ("id", VInt 2); ("email", VStr "hamlet@zulip.com"); ("full_name", VStr "Hamlet");
  ("default_language", VStr "en"); ("timezone", VStr "");
  ("twenty_four_hour_time", VBool false);
  ("enable_desktop_notifications", VBool true); ("enable_sounds", VBool true);
  ("default_all_public_streams", VBool true)].

Definition two_profiles : World :=
  with_heap (<[2%positive := hamlet]> (heap example_world)) example_world.

(** A third object in memory that lacks the 24-hour setting and the
    notification settings. *)
Definition yorick : gmap string Value := list_to_map [
  ("id", VInt 3); ("email", VStr "yorick@zulip.com"); ("full_name", VStr "Yorick");
  ("default_language", VStr "da"); ("timezone", VStr "Europe/Copenhagen")].

Definition three_profiles : World :=
  with_heap (<[3%positive := yorick]> (heap two_profiles)) two_profiles.

(** The same, with a personal Recipient left over for the primary key
    the next account will get. *)
Definition stale_db : Database :=
  {| user_profiles := user_profiles example_db;
     user_profile_seq := 2;
     recipients := recipients example_db
                   ++ [ {| recipient_id := 2; type_id := 2; type := PERSONAL |} ];
     recipient_seq := 3;
     subscriptions := subscriptions example_db;
     subscription_seq := 2 |}.

Definition stale_world : World := with_db stale_db example_world.

(** [create_user("Othello@Zulip.COM", "secret", realm, "Othello",
    "othello", active=..., bot_type=...,
    default_all_public_streams=..., source_profile=...)] *)
Abbreviation example_call active bot_type default_all_public_streams
    source_profile :=
  (@create_user example_models "Othello@Zulip.COM" (Some "secret") example_realm
     "Othello" "othello" active false bot_type None None "" "G" false None None
     default_all_public_streams source_profile).

(** The world in which that call, made without a source profile in
    [stale_world], reaches [user_profile.save()]. *)
Abbreviation stale_prepared :=
  (prepared_world
     (@prepared_profile example_models "Othello@Zulip.COM" (Some "secret")
        example_realm "Othello" "othello" true false None None None "" "G"
        false None None None (clock stale_world) (api_key_of stale_world))
     stale_world).

(** * Properties *)

(** ** The monad *)

Lemma bind_run {A B} (m : M A) (f : A -> M B) (w : World) :
  (m ≫= f) w =
  match m w with
  | (Return a, w') => f a w'
  | (Raise e, w') => (Raise e, w')
  end.
Proof. reflexivity. Qed.

Lemma bind_returns {A B} (m : M A) (f : A -> M B) w a w1 :
  m w = (Return a, w1) -> (m ≫= f) w = f a w1.
Proof. intros E. rewrite bind_run, E. reflexivity. Qed.

Lemma bind_raises {A B} (m : M A) (f : A -> M B) w e w1 :
  m w = (Raise e, w1) -> (m ≫= f) w = (Raise e, w1).
Proof. intros E. rewrite bind_run, E. reflexivity. Qed.

(** ** base64 and the API key *)

Lemma choice_in_range (b : byte) :
  String.get (N.to_nat (Byte.to_N b mod 62)) choices = Some (choice_of b).
Proof. destruct b; reflexivity. Qed.

Lemma choice_alphanumeric (b : byte) : char_in choices (choice_of b) = true.
Proof. destruct b; reflexivity. Qed.

Lemma random_choice_run (w : World) :
  random_choice w =
  (Return (choice_of (entropy w (consumed w))), with_consumed (consumed w + 1) w).
Proof.
  unfold random_choice. rewrite bind_run. cbn [urandom seq fmap list_fmap].
  unfold str_index. rewrite choice_in_range. reflexivity.
Qed.

Lemma sextet_bound (x : N) : (N.to_nat (N.land x 63) < 64)%nat.
Proof.
  change 63%N with (N.ones 6). rewrite N.land_ones.
  assert (x mod 2 ^ 6 < 64)%N by (apply N.mod_lt; discriminate). lia.
Qed.

(** Once both substitutes are alphanumeric, so is every translated
    symbol. *)
Lemma translated_symbol_alphanumeric (alt0 alt1 : ascii) (x : N) :
  char_in choices alt0 = true -> char_in choices alt1 = true ->
  char_in choices (translate_altchars alt0 alt1 (b64_symbol x)) = true.
Proof.
  intros H0 H1. unfold b64_symbol.
  pose proof (sextet_bound x) as Hb.
  destruct (N.to_nat (N.land x 63)) as [|n]; [reflexivity|].
  do 61 (destruct n as [|n]; [reflexivity|]).
  destruct n as [|n]; [exact H0|].
  destruct n as [|n]; [exact H1|].
  lia.
Qed.

Lemma alphanumeric_in_alphabet (c : ascii) :
  char_in choices c = true -> char_in b64_alphabet c = true.
Proof.
  destruct c as [[] [] [] [] [] [] [] []]; vm_compute; congruence.
Qed.

Lemma b2a_base64_triples (k : nat) (data : list byte) (P : ascii -> Prop) :
  length data = (3 * k)%nat ->
  (forall x, P (b64_symbol x)) ->
  length (b2a_base64 data) = (4 * k)%nat /\ Forall P (b2a_base64 data).
Proof.
  intros Hlen HP. revert data Hlen.
  induction k as [|k IH]; intros data Hlen.
  - destruct data; [|discriminate]. split; [reflexivity | constructor].
  - destruct data as [|a [|b [|c rest]]]; simpl in Hlen; try lia.
    destruct (IH rest) as [Hl Hf]; [lia|].
    cbn [b2a_base64]. split.
    + cbn [length]. rewrite Hl. lia.
    + repeat constructor; try apply HP. exact Hf.
Qed.

Lemma wellformed_groups (k : nat) (cs : list ascii) :
  length cs = (4 * k)%nat ->
  Forall (fun c => char_in b64_alphabet c = true) cs ->
  base64_wellformed cs = true.
Proof.
  revert cs. induction k as [|k IH]; intros cs Hlen Hall.
  - destruct cs; [reflexivity | discriminate].
  - destruct cs as [|a [|b [|c [|d rest]]]]; simpl in Hlen; try lia.
    inversion Hall as [|? ? Ha Hall1]; subst.
    inversion Hall1 as [|? ? Hb Hall2]; subst.
    inversion Hall2 as [|? ? Hc Hall3]; subst.
    inversion Hall3 as [|? ? Hd Hall4]; subst.
    assert (Hrest : base64_wellformed rest = true) by (apply (IH rest); [lia | exact Hall4]).
    destruct rest as [|e rest'].
    + cbn [base64_wellformed]. rewrite Ha, Hb, Hc, Hd. reflexivity.
    + change (base64_wellformed (a :: b :: c :: d :: e :: rest'))
        with (char_in b64_alphabet a && char_in b64_alphabet b
              && char_in b64_alphabet c && char_in b64_alphabet d
              && base64_wellformed (e :: rest')).
      rewrite Ha, Hb, Hc, Hd, Hrest. reflexivity.
Qed.

Lemma string_list_ascii_length (cs : list ascii) :
  String.length (String.string_of_list_ascii cs) = length cs.
Proof. induction cs as [|c cs IH]; [reflexivity | simpl; f_equal; exact IH]. Qed.

(** Encoding [3 * k] bytes under alphanumeric substitutes. *)
Lemma b64encode_alphanumeric (k : nat) (payload : list byte) (alt0 alt1 : ascii) :
  length payload = (3 * k)%nat ->
  char_in choices alt0 = true -> char_in choices alt1 = true ->
  String.length (b64encode payload alt0 alt1) = (4 * k)%nat
  /\ Forall (fun c => char_in choices c = true)
       (String.list_ascii_of_string (b64encode payload alt0 alt1))
  /\ valid_base64 (b64encode payload alt0 alt1) = true.
Proof.
  intros Hlen H0 H1.
  destruct (b2a_base64_triples k payload
              (fun c => char_in choices (translate_altchars alt0 alt1 c) = true)
              Hlen) as [Hl Hf].
  { intros x. apply translated_symbol_alphanumeric; assumption. }
  unfold valid_base64, b64encode.
  rewrite string_list_ascii_length, String.list_ascii_of_string_of_list_ascii.
  assert (Hall : Forall (fun c => char_in choices c = true)
                   (translate_altchars alt0 alt1 <$> b2a_base64 payload)).
  { apply Forall_fmap. exact Hf. }
  split; [rewrite length_fmap; exact Hl|]. split; [exact Hall|].
  apply (wellformed_groups k); [rewrite length_fmap; exact Hl|].
  eapply Forall_impl; [exact Hall|]. intros c. apply alphanumeric_in_alphabet.
Qed.

Lemma random_api_key_run (w : World) :
  random_api_key w = (Return (api_key_of w), with_consumed (consumed w + 26) w).
Proof.
  unfold random_api_key.
  rewrite (bind_returns _ _ _ _ _ (random_choice_run w)).
  rewrite (bind_returns _ _ _ _ _ (random_choice_run _)).
  rewrite bind_run. unfold urandom, api_key_of, api_key_payload, with_consumed.
  cbn [heap db clock entropy consumed].
  replace (consumed w + 1 + 1)%nat with (consumed w + 2)%nat by lia.
  replace (consumed w + 2 + 24)%nat with (consumed w + 26)%nat by lia.
  reflexivity.
Qed.

(** C7: every call of random_api_key returns, and the key it returns is
    the base64 encoding of the 24 random bytes it drew, with '+' and '/'
    replaced by two characters drawn from the ASCII letters and digits;
    the key has 32 characters, all of them letters or digits, and is
    well-formed base64 text. *)
Theorem random_api_key_is_base64 (w : World) :
  exists (alt0 alt1 : ascii) (payload : list byte) (w' : World),
    random_api_key w = (Return (b64encode payload alt0 alt1), w')
    /\ length payload = 24%nat
    /\ payload = entropy w <$> seq (consumed w + 2) 24
    /\ char_in (ascii_letters ++ digits) alt0 = true
    /\ char_in (ascii_letters ++ digits) alt1 = true
    /\ String.length (b64encode payload alt0 alt1) = 32%nat
    /\ valid_base64 (b64encode payload alt0 alt1) = true.
Proof.
  exists (choice_of (entropy w (consumed w))),
         (choice_of (entropy w (consumed w + 1))),
         (api_key_payload w), (with_consumed (consumed w + 26) w).
  assert (Hlen : length (api_key_payload w) = (3 * 8)%nat).
  { unfold api_key_payload. rewrite length_fmap, length_seq. reflexivity. }
  destruct (b64encode_alphanumeric 8 (api_key_payload w)
              (choice_of (entropy w (consumed w)))
              (choice_of (entropy w (consumed w + 1)))
              Hlen (choice_alphanumeric _) (choice_alphanumeric _))
    as (Hl & _ & Hv).
  split; [apply random_api_key_run|].
  split; [exact Hlen|]. split; [reflexivity|].
  split; [apply choice_alphanumeric|]. split; [apply choice_alphanumeric|].
  split; [exact Hl | exact Hv].
Qed.

(** ** Objects on the heap *)

Lemma attrs_of_store_same l n v w :
  attrs_of (store_attr l n v w) l = <[n := v]> (attrs_of w l).
Proof. unfold store_attr, attrs_of at 1. cbn. by rewrite lookup_insert_eq. Qed.

Lemma heap_store_other l l' n v w :
  l' ≠ l -> heap (store_attr l n v w) !! l' = heap w !! l'.
Proof. intros Hne. unfold store_attr. cbn. by rewrite lookup_insert_ne. Qed.

Lemma attrs_of_store_other l l' n v w :
  l' ≠ l -> attrs_of (store_attr l n v w) l' = attrs_of w l'.
Proof. intros Hne. unfold attrs_of. by rewrite heap_store_other. Qed.

Lemma attr_of_store_same l n v w : attr_of (store_attr l n v w) l n = Some v.
Proof. unfold attr_of. rewrite attrs_of_store_same. apply lookup_insert_eq. Qed.

Lemma attr_of_store_ne l n m v w :
  n ≠ m -> attr_of (store_attr l n v w) l m = attr_of w l m.
Proof.
  intros Hne. unfold attr_of. rewrite attrs_of_store_same.
  by rewrite lookup_insert_ne.
Qed.

Lemma attr_of_store_other l l' n m v w :
  l' ≠ l -> attr_of (store_attr l n v w) l' m = attr_of w l' m.
Proof. intros Hne. unfold attr_of. by rewrite attrs_of_store_other. Qed.

Lemma attr_of_allocated w l n v :
  attr_of w l n = Some v -> heap w !! l = Some (attrs_of w l).
Proof.
  unfold attr_of, attrs_of. destruct (heap w !! l) as [a|]; [done|].
  cbn. by rewrite lookup_empty.
Qed.

(** Binding an attribute to the value it already has changes nothing. *)
Lemma store_attr_same_value l n v w :
  attr_of w l n = Some v -> store_attr l n v w = w.
Proof.
  intros Hv. pose proof (attr_of_allocated _ _ _ _ Hv) as Hl.
  unfold store_attr. unfold attr_of in Hv.
  rewrite (insert_id (attrs_of w l) n v Hv).
  rewrite (insert_id (heap w) l _ Hl).
  by destruct w.
Qed.

Lemma only_target_changed_refl tgt names w : only_target_changed tgt names w w.
Proof. by repeat split. Qed.

Lemma only_target_changed_trans tgt names1 names2 names w1 w2 w3 :
  names1 ⊆ names -> names2 ⊆ names ->
  only_target_changed tgt names1 w1 w2 ->
  only_target_changed tgt names2 w2 w3 ->
  only_target_changed tgt names w1 w3.
Proof.
  intros S1 S2 (D1 & C1 & E1 & N1 & H1 & A1) (D2 & C2 & E2 & N2 & H2 & A2).
  repeat split; try congruence.
  - intros l Hl. rewrite H2, H1; done.
  - intros n Hn. rewrite A2, A1; [done | |]; intros Hin; apply Hn; auto.
Qed.

Lemma only_target_changed_store tgt n v w :
  only_target_changed tgt [n] w (store_attr tgt n v w).
Proof.
  repeat split; try done.
  - intros l Hl. by apply heap_store_other.
  - intros m Hm. apply attr_of_store_ne. set_solver.
Qed.

Section Properties.
Context {models : Models}.

(** ** copy_user_settings *)

Lemma copy_setting_returns src tgt n v w :
  attr_of w src n = Some v ->
  copy_setting src tgt n w = (Return tt, store_attr tgt n v w).
Proof.
  intros Hv. unfold copy_setting. rewrite bind_run.
  unfold getattr. by rewrite Hv.
Qed.

Lemma copy_setting_raises src tgt n w :
  attr_of w src n = None ->
  copy_setting src tgt n w = (Raise (AttributeError n), w).
Proof.
  intros Hv. unfold copy_setting. rewrite bind_run.
  unfold getattr. by rewrite Hv.
Qed.

(** The source keeps its attributes through one copy, also when the
    target is the source itself. *)
Lemma copy_step_source src tgt n v w m :
  attr_of w src n = Some v ->
  attr_of (store_attr tgt n v w) src m = attr_of w src m.
Proof.
  intros Hv. destruct (decide (src = tgt)) as [->|Hne].
  - by rewrite (store_attr_same_value _ _ _ _ Hv).
  - by apply attr_of_store_other.
Qed.

Lemma copy_loop_frame names src tgt w o w' :
  for_each names (copy_setting src tgt) w = (o, w') ->
  only_target_changed tgt names w w'.
Proof.
  revert w. induction names as [|n names IH]; intros w Hrun.
  - cbn in Hrun. injection Hrun as _ <-. apply only_target_changed_refl.
  - cbn [for_each] in Hrun. rewrite bind_run in Hrun.
    destruct (attr_of w src n) as [v|] eqn:Hv.
    + rewrite (copy_setting_returns _ _ _ _ _ Hv) in Hrun.
      eapply (only_target_changed_trans tgt [n] names);
        [set_solver | set_solver | apply only_target_changed_store | by apply IH].
    + rewrite (copy_setting_raises _ _ _ _ Hv) in Hrun.
      injection Hrun as _ <-. apply only_target_changed_refl.
Qed.

Lemma copy_loop_self names l w o w' :
  for_each names (copy_setting l l) w = (o, w') -> w' = w.
Proof.
  revert w. induction names as [|n names IH]; intros w Hrun.
  - cbn in Hrun. by injection Hrun as _ <-.
  - cbn [for_each] in Hrun. rewrite bind_run in Hrun.
    destruct (attr_of w l n) as [v|] eqn:Hv.
    + rewrite (copy_setting_returns _ _ _ _ _ Hv) in Hrun.
      rewrite (store_attr_same_value _ _ _ _ Hv) in Hrun. by apply IH.
    + rewrite (copy_setting_raises _ _ _ _ Hv) in Hrun.
      by injection Hrun as _ <-.
Qed.

Lemma copy_loop_returns names src tgt w :
  (forall n, n ∈ names -> is_Some (attr_of w src n)) ->
  exists w',
    for_each names (copy_setting src tgt) w = (Return tt, w')
    /\ (forall n, n ∈ names -> attr_of w' tgt n = attr_of w src n)
    /\ (forall n, attr_of w' src n = attr_of w src n).
Proof.
  revert w. induction names as [|n names IH]; intros w Hsrc.
  - exists w. split; [done|]. split; [|done]. intros n Hn. set_solver.
  - destruct (Hsrc n) as [v Hv]; [set_solver|].
    pose (w1 := store_attr tgt n v w).
    assert (Hkeep : forall m, attr_of w1 src m = attr_of w src m).
    { intros m. by apply copy_step_source. }
    destruct (IH w1) as (w' & Hrun & Hcopied & Hsame).
    { intros m Hm. rewrite Hkeep. apply Hsrc. set_solver. }
    exists w'. split; [|split].
    + cbn [for_each]. rewrite bind_run, (copy_setting_returns _ _ _ _ _ Hv).
      exact Hrun.
    + intros m Hm. destruct (decide (m ∈ names)) as [Hin|Hnin].
      * rewrite Hcopied, Hkeep; done.
      * assert (m = n) as -> by set_solver.
        destruct (copy_loop_frame _ _ _ _ _ _ Hrun) as (_ & _ & _ & _ & _ & Hrest).
        rewrite (Hrest n Hnin). subst w1. rewrite attr_of_store_same. done.
    + intros m. rewrite Hsame. apply Hkeep.
Qed.

Lemma for_each_app {A} (xs ys : list A) (body : A -> M unit) (w : World) :
  for_each (xs ++ ys) body w = (for_each xs body;; for_each ys body) w.
Proof.
  revert w. induction xs as [|x xs IH]; intros w; [reflexivity|].
  cbn [app for_each]. rewrite !bind_run.
  destruct (body x w) as [[[]|e] w1]; [|reflexivity].
  rewrite IH, bind_run. reflexivity.
Qed.

Lemma copy_user_settings_as_loop src tgt w :
  copy_user_settings src tgt w = for_each copied_names (copy_setting src tgt) w.
Proof.
  unfold copy_user_settings, copied_names.
  rewrite for_each_app, !bind_run.
  destruct (for_each property_types _ w) as [[[]|e] w1]; [|reflexivity].
  rewrite for_each_app, !bind_run.
  destruct (for_each notification_setting_types _ w1) as [[[]|e] w2]; [|reflexivity].
  cbn [for_each]. unfold copy_setting. rewrite !bind_run.
  destruct (getattr src "full_name" w2) as [[v|e] w3]; reflexivity.
Qed.

Lemma elem_of_copied_names n :
  n ∈ copied_names <->
  n = "full_name" \/ n ∈ property_types \/ n ∈ notification_setting_types.
Proof. unfold copied_names. set_solver. Qed.

(** C4: when the source has every field copy_user_settings reads, the
    call returns, and afterwards the target's full name, every field
    named in property_types and every field named in
    notification_setting_types equal the source's (as they were before
    the call and as they are after it). *)
Theorem copy_user_settings_copies (source_profile target_profile : loc) (w : World) :
  (forall n, n = "full_name" \/ n ∈ property_types
             \/ n ∈ notification_setting_types ->
             is_Some (attr_of w source_profile n)) ->
  exists w',
    copy_user_settings source_profile target_profile w = (Return tt, w')
    /\ forall n, n = "full_name" \/ n ∈ property_types
                 \/ n ∈ notification_setting_types ->
         attr_of w' target_profile n = attr_of w source_profile n
         /\ attr_of w' target_profile n = attr_of w' source_profile n.
Proof.
  intros Hsrc.
  destruct (copy_loop_returns copied_names source_profile target_profile w)
    as (w' & Hrun & Hcopied & Hsame).
  { intros n Hn. apply Hsrc. by apply elem_of_copied_names. }
  exists w'. split; [by rewrite copy_user_settings_as_loop|].
  intros n Hn. apply elem_of_copied_names in Hn.
  split; [by apply Hcopied|]. rewrite Hsame. by apply Hcopied.
Qed.

(** C5: whatever its outcome, copy_user_settings leaves the database,
    the clock and the random source as they were, leaves the source
    object as it was (also when source and target are one object),
    leaves every object other than the target as it was, and leaves
    every attribute of the target other than full_name and the names in
    property_types and notification_setting_types as it was; what it
    returns is the unit value. *)
Theorem copy_user_settings_frame (source_profile target_profile : loc) (w : World) :
  let w' := (copy_user_settings source_profile target_profile w).2 in
  (forall r, (copy_user_settings source_profile target_profile w).1 = Return r ->
             r = tt)
  /\ db w' = db w
  /\ clock w' = clock w /\ entropy w' = entropy w /\ consumed w' = consumed w
  /\ heap w' !! source_profile = heap w !! source_profile
  /\ (forall l, l ≠ target_profile -> heap w' !! l = heap w !! l)
  /\ (forall n, n ≠ "full_name" -> n ∉ property_types ->
                n ∉ notification_setting_types ->
                attr_of w' target_profile n = attr_of w target_profile n).
Proof.
  destruct (copy_user_settings source_profile target_profile w) as [o w'] eqn:Hrun.
  cbn [fst snd]. rewrite copy_user_settings_as_loop in Hrun.
  destruct (copy_loop_frame _ _ _ _ _ _ Hrun) as (Hd & Hc & He & Hn & Hh & Ha).
  split; [by intros []|].
  repeat (split; [assumption|]).
  split; [|split; [exact Hh|]].
  - destruct (decide (source_profile = target_profile)) as [->|Hne].
    + by rewrite (copy_loop_self _ _ _ _ _ Hrun).
    + by apply Hh.
  - intros n N1 N2 N3. apply Ha. rewrite elem_of_copied_names. tauto.
Qed.

(** ** create_user_profile *)

Lemma create_user_profile_run realm email password active bot_type
    full_name short_name bot_owner is_mirror_dummy tos_version timezone
    tutorial_status enter_sends (w : World) :
  create_user_profile realm email password active bot_type full_name
    short_name bot_owner is_mirror_dummy tos_version timezone
    tutorial_status enter_sends w =
  (Return (fresh (dom (heap w))),
   {| heap := <[fresh (dom (heap w)) :=
                  created_profile realm email password active bot_type
                    full_name short_name bot_owner is_mirror_dummy
                    tos_version timezone tutorial_status enter_sends
                    (clock w) (api_key_of w)]> (heap w);
      db := db w;
      clock := clock w + 1;
      entropy := entropy w;
      consumed := consumed w + 26 |}).
Proof.
  unfold create_user_profile.
  rewrite bind_run. cbn [timezone_now].
  rewrite bind_run. unfold UserProfile_new, new_object. cbn [heap with_clock].
  rewrite bind_run. unfold set_password, setattr.
  rewrite bind_run, random_api_key_run.
  rewrite bind_run.
  unfold store_attr, attrs_of, with_heap, with_consumed, api_key_of,
    api_key_payload, created_profile.
  cbn [heap db clock entropy consumed mret M_ret].
  rewrite !lookup_insert_eq. cbn [default].
  rewrite !insert_insert_eq. reflexivity.
Qed.

Lemma created_profile_lookup realm email password active bot_type
    full_name short_name bot_owner is_mirror_dummy tos_version timezone
    tutorial_status enter_sends now key :
  let A := created_profile realm email password active bot_type full_name
             short_name bot_owner is_mirror_dummy tos_version timezone
             tutorial_status enter_sends now key in
  A !! "id" = Some VNone
  /\ A !! "email" = Some (VStr (normalize_email email))
  /\ A !! "full_name" = Some (VStr full_name)
  /\ A !! "last_login" = Some (VTime now)
  /\ A !! "date_joined" = Some (VTime now)
  /\ A !! "onboarding_steps" = Some (VStr "[]")
  /\ A !! "is_bot" = Some (VBool (truthy bot_type))
  /\ A !! "password" =
       Some (VPassword (make_password
               (if truthy bot_type || negb active then None else password)))
  /\ A !! "default_all_public_streams" =
       field_defaults !! "default_all_public_streams".
Proof.
  cbv zeta. unfold created_profile.
  repeat split.
  all: repeat (rewrite lookup_insert_ne by done).
  all: try (rewrite lookup_insert_eq; reflexivity).
  all: try (rewrite lookup_union_l'; [reflexivity | eexists; reflexivity]).
  rewrite lookup_union_r; reflexivity.
Qed.

Lemma fresh_location_unused (w : World) : heap w !! fresh (dom (heap w)) = None.
Proof. apply not_elem_of_dom. apply is_fresh. Qed.

(** C8: every call of create_user_profile returns a profile object that
    did not exist before and has no primary key; its email is the
    normalized email argument, its last_login and date_joined are both
    the time read at the start of the call, its onboarding_steps is the
    text of an empty JSON list, and the database is left as it was. *)
Theorem create_user_profile_unsaved realm email password active bot_type
    full_name short_name bot_owner is_mirror_dummy tos_version timezone
    tutorial_status enter_sends (w : World) :
  exists (user_profile : loc) (w' : World),
    create_user_profile realm email password active bot_type full_name
      short_name bot_owner is_mirror_dummy tos_version timezone
      tutorial_status enter_sends w = (Return user_profile, w')
    /\ heap w !! user_profile = None
    /\ attr_of w' user_profile "id" = Some VNone
    /\ db w' = db w
    /\ attr_of w' user_profile "email" = Some (VStr (normalize_email email))
    /\ attr_of w' user_profile "last_login" = Some (VTime (clock w))
    /\ attr_of w' user_profile "date_joined" = Some (VTime (clock w))
    /\ attr_of w' user_profile "onboarding_steps" = Some (VStr "[]").
Proof.
  eexists _, _. split; [apply create_user_profile_run|].
  unfold attr_of, attrs_of. cbn [heap db].
  rewrite lookup_insert_eq. cbn [from_option id].
  pose proof (created_profile_lookup realm email password active bot_type
                full_name short_name bot_owner is_mirror_dummy tos_version
                timezone tutorial_status enter_sends (clock w) (api_key_of w))
    as (Hid & Hemail & _ & Hlogin & Hjoined & Hsteps & _).
  split; [apply fresh_location_unused|].
  repeat split; assumption.
Qed.

(** C9: the profile create_user_profile returns has is_bot true exactly
    when bot_type is truthy; for bot_type 0 is_bot is false and, when
    the account is active, the password field is the hash of the
    password argument as given. *)
Theorem create_user_profile_is_bot realm email password active bot_type
    full_name short_name bot_owner is_mirror_dummy tos_version timezone
    tutorial_status enter_sends (w : World) :
  exists (user_profile : loc) (w' : World),
    create_user_profile realm email password active bot_type full_name
      short_name bot_owner is_mirror_dummy tos_version timezone
      tutorial_status enter_sends w = (Return user_profile, w')
    /\ (attr_of w' user_profile "is_bot" = Some (VBool true)
        <-> truthy bot_type = true)
    /\ (attr_of w' user_profile "is_bot" = Some (VBool false)
        <-> truthy bot_type = false)
    /\ (bot_type = Some 0 ->
        attr_of w' user_profile "is_bot" = Some (VBool false)
        /\ (active = true ->
            attr_of w' user_profile "password" =
              Some (VPassword (make_password password)))).
Proof.
  eexists _, _. split; [apply create_user_profile_run|].
  unfold attr_of, attrs_of. cbn [heap].
  rewrite lookup_insert_eq. cbn [from_option id].
  pose proof (created_profile_lookup realm email password active bot_type
                full_name short_name bot_owner is_mirror_dummy tos_version
                timezone tutorial_status enter_sends (clock w) (api_key_of w))
    as (_ & _ & _ & _ & _ & _ & Hbot & Hpw & _).
  rewrite Hbot, Hpw.
  split; [split; [congruence | by intros ->]|].
  split; [split; [congruence | by intros ->]|].
  intros ->. split; [reflexivity|]. by intros ->.
Qed.

(** ** create_user *)

Lemma bind_setattr {B} l n v (k : unit -> M B) (w : World) :
  (setattr l n v ≫= k) w = k tt (store_attr l n v w).
Proof. reflexivity. Qed.

Lemma store_attr_prepared n v A (w : World) :
  store_attr (fresh (dom (heap w))) n v (prepared_world A w)
  = prepared_world (<[n := v]> A) w.
Proof.
  unfold store_attr, attrs_of, prepared_world, with_heap. cbn [heap db clock entropy consumed].
  rewrite lookup_insert_eq. cbn [from_option id].
  by rewrite insert_insert_eq.
Qed.

Lemma attrs_of_prepared A (w : World) :
  attrs_of (prepared_world A w) (fresh (dom (heap w))) = A.
Proof.
  unfold attrs_of, prepared_world. cbn [heap]. by rewrite lookup_insert_eq.
Qed.

Lemma attrs_of_prepared_other A (w : World) l :
  is_Some (heap w !! l) -> attrs_of (prepared_world A w) l = attrs_of w l.
Proof.
  intros Hl. unfold attrs_of, prepared_world. cbn [heap].
  rewrite lookup_insert_ne; [done|].
  intros <-. rewrite fresh_location_unused in Hl. by destruct Hl.
Qed.

Section CreateUserCall.
Variables (email : string) (password : option string) (realm : Realm)
  (full_name short_name : string) (active : bool) (is_realm_admin : bool)
  (bot_type : option Z) (bot_owner : option loc) (tos_version : option string)
  (timezone : string) (avatar_source : string) (is_mirror_dummy : bool)
  (default_sending_stream default_events_register_stream : option loc)
  (default_all_public_streams : option bool).

Lemma create_user_unfold (source_profile : option loc) (w : World) :
  create_user email password realm full_name short_name active is_realm_admin
    bot_type bot_owner tos_version timezone avatar_source is_mirror_dummy
    default_sending_stream default_events_register_stream
    default_all_public_streams source_profile w =
  (match source_profile with
   | Some source => copy_user_settings source (fresh (dom (heap w)))
   | None => mret tt
   end;; persist (fresh (dom (heap w))))
    (prepared_world
       (prepared_profile email password realm full_name short_name active
          is_realm_admin bot_type bot_owner tos_version timezone avatar_source
          is_mirror_dummy default_sending_stream default_events_register_stream
          default_all_public_streams (clock w) (api_key_of w)) w).
Proof.
  unfold create_user. rewrite bind_run, create_user_profile_run.
  fold (prepared_world
          (created_profile realm email password active bot_type full_name
             short_name bot_owner is_mirror_dummy tos_version (Some timezone)
             (Some TUTORIAL_WAITING) false (clock w) (api_key_of w)) w).
  do 5 (rewrite bind_setattr, store_attr_prepared).
  unfold prepared_profile.
  destruct default_all_public_streams as [flag|].
  - rewrite bind_setattr, store_attr_prepared. reflexivity.
  - reflexivity.
Qed.

(** [persist] on an object that has no primary key yet: the three
    writes happen in order, and the first one the schema rejects ends
    the call with the earlier ones in place. *)
Lemma persist_run (l : loc) (w : World) :
  attr_of w l "id" = Some VNone ->
  persist l w =
  if negb (constraints_hold (db w) (InsertUserProfile (attrs_of w l))
           && bool_decide (user_profiles (db w) !! user_profile_seq (db w) = None))
  then (Raise IntegrityError, w)
  else if negb (constraints_hold (db_after_save l w)
                  (InsertRecipient (user_profile_seq (db w)) PERSONAL))
  then (Raise IntegrityError, saved_world l (db_after_save l w) w)
  else if negb (constraints_hold (db_after_recipient l w)
                  (InsertSubscription (user_profile_seq (db w))
                     (recipient_seq (db w))))
  then (Raise IntegrityError, saved_world l (db_after_recipient l w) w)
  else (Return l, saved_world l (db_after_subscription l w) w).
Proof.
  intros Hid. unfold attr_of in Hid.
  unfold persist. rewrite bind_run. unfold save at 1. rewrite Hid.
  destruct (constraints_hold (db w) (InsertUserProfile (attrs_of w l))
            && bool_decide (user_profiles (db w) !! user_profile_seq (db w) = None));
    [|reflexivity].
  cbn [negb]. rewrite bind_run. unfold getattr at 1, attr_of, attrs_of.
  cbn [heap with_heap with_db]. rewrite lookup_insert_eq. cbn [from_option id].
  rewrite lookup_insert_eq.
  rewrite bind_run. unfold Recipient_objects_create. cbn [db with_heap with_db].
  fold (attrs_of w l). fold (saved_row l w). fold (db_after_save l w).
  destruct (constraints_hold (db_after_save l w)
              (InsertRecipient (user_profile_seq (db w)) PERSONAL));
    [|reflexivity].
  cbn [negb]. rewrite bind_run. unfold Subscription_objects_create.
  rewrite bind_run. unfold getattr at 1, attr_of, attrs_of.
  cbn [heap with_heap with_db]. rewrite lookup_insert_eq. cbn [from_option id].
  fold (attrs_of w l). fold (saved_row l w).
  unfold saved_row at 1. rewrite lookup_insert_eq.
  cbn [db recipient_id recipient_seq db_after_save insert_user_profile
       subscription_seq insert_recipient].
  fold (personal_recipient (db w)). fold (db_after_save l w).
  fold (db_after_recipient l w).
  change (db (with_db (db_after_recipient l w)
                (with_heap (<[l:=saved_row l w]> (heap w))
                   (with_db (db_after_save l w) w))))
    with (db_after_recipient l w).
  destruct (constraints_hold (db_after_recipient l w)
              (InsertSubscription (user_profile_seq (db w)) (recipient_seq (db w))));
    reflexivity.
Qed.

Lemma prepared_profile_lookup (now : Z) (key : string) :
  let P := prepared_profile email password realm full_name short_name active
             is_realm_admin bot_type bot_owner tos_version timezone
             avatar_source is_mirror_dummy default_sending_stream
             default_events_register_stream default_all_public_streams
             now key in
  P !! "id" = Some VNone
  /\ P !! "email" = Some (VStr (normalize_email email))
  /\ P !! "full_name" = Some (VStr full_name)
  /\ P !! "password" =
       Some (VPassword (make_password
               (if truthy bot_type || negb active then None else password)))
  /\ P !! "default_all_public_streams" =
       match default_all_public_streams with
       | Some flag => Some (VBool flag)
       | None => field_defaults !! "default_all_public_streams"
       end.
Proof.
  cbv zeta.
  pose proof (created_profile_lookup realm email password active bot_type
                full_name short_name bot_owner is_mirror_dummy tos_version
                (Some timezone) (Some TUTORIAL_WAITING) false now key)
    as (Hid & Hemail & Hname & _ & _ & _ & _ & Hpw & Hdef).
  unfold prepared_profile.
  destruct default_all_public_streams as [flag|].
  - repeat split.
    all: try (rewrite lookup_insert_eq; reflexivity).
    all: repeat (rewrite lookup_insert_ne by done); assumption.
  - repeat split.
    all: repeat (rewrite lookup_insert_ne by done); assumption.
Qed.

(** The optional overlay of the source's settings on the new object. *)
Lemma overlay_frame (source_profile : option loc) (l : loc) (w1 : World) o1 w2 :
  (match source_profile with
   | Some source => copy_user_settings source l
   | None => mret tt
   end) w1 = (o1, w2) ->
  only_target_changed l copied_names w1 w2.
Proof.
  destruct source_profile as [src|]; intros Hrun.
  - rewrite copy_user_settings_as_loop in Hrun. by eapply copy_loop_frame.
  - injection Hrun as _ <-. apply only_target_changed_refl.
Qed.

Lemma overlay_keeps (source_profile : option loc) (l : loc) (w1 : World) o1 w2 n :
  source_profile = None
  \/ (n ≠ "full_name" /\ not_a_setting n) ->
  (match source_profile with
   | Some source => copy_user_settings source l
   | None => mret tt
   end) w1 = (o1, w2) ->
  attr_of w2 l n = attr_of w1 l n.
Proof.
  intros Hn Hrun. destruct Hn as [->|(N1 & N2 & N3)].
  - by injection Hrun as _ <-.
  - destruct (overlay_frame _ _ _ _ _ Hrun) as (_ & _ & _ & _ & _ & Ha).
    apply Ha. rewrite elem_of_copied_names. tauto.
Qed.

(** How a call of [create_user] splits: the overlay runs in the
    prepared world; if it raises, so does the call, otherwise the call
    ends as [persist] does. *)
Lemma create_user_split (source_profile : option loc) (w : World) o w' :
  create_user email password realm full_name short_name active is_realm_admin
    bot_type bot_owner tos_version timezone avatar_source is_mirror_dummy
    default_sending_stream default_events_register_stream
    default_all_public_streams source_profile w = (o, w') ->
  let l := fresh (dom (heap w)) in
  let w1 := prepared_world
              (prepared_profile email password realm full_name short_name
                 active is_realm_admin bot_type bot_owner tos_version timezone
                 avatar_source is_mirror_dummy default_sending_stream
                 default_events_register_stream default_all_public_streams
                 (clock w) (api_key_of w)) w in
  exists o1 w2,
    (match source_profile with
     | Some source => copy_user_settings source l
     | None => mret tt
     end) w1 = (o1, w2)
    /\ match o1 with
       | Return _ => persist l w2 = (o, w')
       | Raise e => o = Raise e /\ w' = w2
       end.
Proof.
  intros Hrun l w1. rewrite create_user_unfold, bind_run in Hrun.
  fold l w1 in Hrun.
  destruct (match source_profile with
            | Some source => copy_user_settings source l
            | None => mret tt
            end w1) as [[[]|e] w2] eqn:Hov.
  - exists (Return tt), w2. by split.
  - exists (Raise e), w2. split; [done|]. by injection Hrun as <- <-.
Qed.

Lemma create_user_returned (source_profile : option loc) (w : World)
    (user_profile : loc) (w' : World) :
  source_profile = None
  \/ not_a_setting "id" ->
  create_user email password realm full_name short_name active is_realm_admin
    bot_type bot_owner tos_version timezone avatar_source is_mirror_dummy
    default_sending_stream default_events_register_stream
    default_all_public_streams source_profile w = (Return user_profile, w') ->
  let l := fresh (dom (heap w)) in
  let w1 := prepared_world
              (prepared_profile email password realm full_name short_name
                 active is_realm_admin bot_type bot_owner tos_version timezone
                 avatar_source is_mirror_dummy default_sending_stream
                 default_events_register_stream default_all_public_streams
                 (clock w) (api_key_of w)) w in
  user_profile = l
  /\ exists w2,
       (match source_profile with
        | Some source => copy_user_settings source l
        | None => mret tt
        end) w1 = (Return tt, w2)
       /\ db w2 = db w
       /\ constraints_hold (db_after_save l w2)
            (InsertRecipient (user_profile_seq (db w)) PERSONAL) = true
       /\ constraints_hold (db_after_recipient l w2)
            (InsertSubscription (user_profile_seq (db w))
               (recipient_seq (db w))) = true
       /\ w' = saved_world l (db_after_subscription l w2) w2.
Proof.
  intros Hid Hrun l w1.
  destruct (create_user_split _ _ _ _ Hrun) as (o1 & w2 & Hov & Hrest).
  fold l w1 in Hov, Hrest.
  destruct o1 as [[]|e]; [|by destruct Hrest].
  assert (Hpk : attr_of w2 l "id" = Some VNone).
  { rewrite (overlay_keeps source_profile l w1 (Return tt) w2 "id"); [| |exact Hov].
    - unfold attr_of, w1, l. rewrite attrs_of_prepared.
      apply prepared_profile_lookup.
    - destruct Hid as [->|?]; [by left | right; by split]. }
  destruct (overlay_frame _ _ _ _ _ Hov) as (Hd & _).
  cbn [db prepared_world w1] in Hd.
  rewrite (persist_run _ _ Hpk), Hd in Hrest.
  destruct (constraints_hold (db w) (InsertUserProfile (attrs_of w2 l))
            && bool_decide (user_profiles (db w) !! user_profile_seq (db w) = None));
    cbn [negb] in Hrest; [|discriminate].
  destruct (constraints_hold (db_after_save l w2)
              (InsertRecipient (user_profile_seq (db w)) PERSONAL)) eqn:Hr;
    cbn [negb] in Hrest; [|discriminate].
  destruct (constraints_hold (db_after_recipient l w2)
              (InsertSubscription (user_profile_seq (db w)) (recipient_seq (db w))))
    eqn:Hs; cbn [negb] in Hrest; [|discriminate].
  injection Hrest as <- <-.
  split; [reflexivity|]. exists w2. by repeat split.
Qed.

Lemma create_user_raised (source_profile : option loc) (w : World)
    (e : Exn) (w' : World) :
  source_profile = None
  \/ not_a_setting "id" ->
  create_user email password realm full_name short_name active is_realm_admin
    bot_type bot_owner tos_version timezone avatar_source is_mirror_dummy
    default_sending_stream default_events_register_stream
    default_all_public_streams source_profile w = (Raise e, w') ->
  let l := fresh (dom (heap w)) in
  exists w2,
    db w2 = db w
    /\ (db w' = db w
        \/ (db w' = db_after_save l w2
            /\ constraints_hold (db_after_save l w2)
                 (InsertRecipient (user_profile_seq (db w)) PERSONAL) = false)
        \/ (db w' = db_after_recipient l w2
            /\ constraints_hold (db_after_recipient l w2)
                 (InsertSubscription (user_profile_seq (db w))
                    (recipient_seq (db w))) = false)).
Proof.
  intros Hid Hrun l.
  destruct (create_user_split _ _ _ _ Hrun) as (o1 & w2 & Hov & Hrest).
  fold l in Hov, Hrest.
  destruct (overlay_frame _ _ _ _ _ Hov) as (Hd & _). cbn [db prepared_world] in Hd.
  exists w2. split; [exact Hd|].
  destruct o1 as [[]|e1]; [|destruct Hrest as [_ ->]; by left].
  assert (Hpk : attr_of w2 l "id" = Some VNone).
  { assert (Hn : source_profile = None
                 \/ ("id" ≠ "full_name" /\ not_a_setting "id")).
    { destruct Hid as [->|?]; [by left | right; by split]. }
    rewrite (overlay_keeps _ _ _ _ _ _ Hn Hov).
    unfold attr_of, l. rewrite attrs_of_prepared.
    apply prepared_profile_lookup. }
  rewrite (persist_run _ _ Hpk), Hd in Hrest.
  destruct (constraints_hold (db w) (InsertUserProfile (attrs_of w2 l))
            && bool_decide (user_profiles (db w) !! user_profile_seq (db w) = None));
    cbn [negb] in Hrest; [|injection Hrest as _ <-; by left].
  destruct (constraints_hold (db_after_save l w2)
              (InsertRecipient (user_profile_seq (db w)) PERSONAL)) eqn:Hr;
    cbn [negb] in Hrest; [|injection Hrest as _ <-; right; left; by split].
  destruct (constraints_hold (db_after_recipient l w2)
              (InsertSubscription (user_profile_seq (db w)) (recipient_seq (db w))))
    eqn:Hs; cbn [negb] in Hrest; [discriminate|].
  injection Hrest as _ <-. right; right. by split.
Qed.

Lemma filter_none {A} (P : A -> Prop) `{!forall x, Decision (P x)} (xs : list A) :
  Forall (fun x => ~ P x) xs -> filter P xs = [].
Proof.
  induction 1 as [|x xs Hx _ IH]; [reflexivity|].
  by rewrite filter_cons_False.
Qed.

Lemma existsb_false_filter {A} (P : A -> Prop) `{!forall x, Decision (P x)}
    (xs : list A) :
  existsb (fun x => bool_decide (P x)) xs = false -> filter P xs = [].
Proof.
  induction xs as [|x xs IH]; [reflexivity|]. cbn [existsb].
  intros [Hx Hxs]%orb_false_elim.
  apply bool_decide_eq_false in Hx.
  rewrite filter_cons_False by done. by apply IH.
Qed.

Lemma attr_of_saved_id l d (w2 : World) :
  attr_of (saved_world l d w2) l "id" = Some (VInt (user_profile_seq (db w2))).
Proof.
  unfold attr_of, attrs_of, saved_world, saved_row. cbn [heap with_heap with_db].
  rewrite lookup_insert_eq. cbn [from_option id]. by rewrite lookup_insert_eq.
Qed.

Lemma attr_of_saved_ne l d (w2 : World) n :
  n ≠ "id" -> attr_of (saved_world l d w2) l n = attr_of w2 l n.
Proof.
  intros Hn. unfold attr_of, attrs_of at 1, saved_world, saved_row.
  cbn [heap with_heap with_db].
  rewrite lookup_insert_eq. cbn [from_option id]. by rewrite lookup_insert_ne.
Qed.

Lemma attrs_of_saved l d (w2 : World) :
  attrs_of (saved_world l d w2) l = saved_row l w2.
Proof.
  unfold attrs_of at 1, saved_world. cbn [heap with_heap with_db].
  by rewrite lookup_insert_eq.
Qed.

(** C1: a call of create_user that returns leaves the profile with a
    primary key pk, exactly one personal Recipient whose type_id is pk,
    and exactly one Subscription linking pk to that Recipient; the
    profile's row is stored under pk. This holds when the rows of the
    database only mention identifiers its sequences have handed out, or
    when the schema enforces the uniqueness of such rows, and provided
    the overlay does not copy the primary key. *)
Theorem create_user_one_recipient_one_subscription
    (source_profile : option loc) (w : World) (user_profile : loc) (w' : World) :
  sequences_ahead (db w) \/ enforces_uniqueness ->
  source_profile = None \/ not_a_setting "id" ->
  create_user email password realm full_name short_name active is_realm_admin
    bot_type bot_owner tos_version timezone avatar_source is_mirror_dummy
    default_sending_stream default_events_register_stream
    default_all_public_streams source_profile w = (Return user_profile, w') ->
  exists (pk : Z) (recipient : Recipient) (subscription : Subscription),
    attr_of w' user_profile "id" = Some (VInt pk)
    /\ user_profiles (db w') !! pk = Some (attrs_of w' user_profile)
    /\ personal_recipients_of pk (db w') = [recipient]
    /\ subscriptions_linking pk (recipient_id recipient) (db w') = [subscription].
Proof.
  intros Hdb Hid Hrun.
  destruct (create_user_returned _ _ _ _ Hid Hrun)
    as (-> & w2 & _ & Hd & Hrcpt & Hsub & ->).
  assert (Hold :
    filter (fun r => type r = PERSONAL /\ type_id r = user_profile_seq (db w))
      (recipients (db w)) = []
    /\ filter (fun s => user_profile_id s = user_profile_seq (db w)
                        /\ subscribed_recipient_id s = recipient_seq (db w))
         (subscriptions (db w)) = []).
  { destruct Hdb as [(_ & Hrs & Hss) | Huniq].
    - split; apply filter_none.
      + eapply Forall_impl; [exact Hrs|]. intros r [_ Hr] [Ht Hpk].
        specialize (Hr Ht). lia.
      + eapply Forall_impl; [exact Hss|]. intros s (_ & _ & Hs) [_ Hrid]. lia.
    - apply Huniq in Hrcpt, Hsub.
      cbn [unique_rows db_after_save db_after_recipient insert_user_profile
           insert_recipient recipients subscriptions] in Hrcpt, Hsub.
      rewrite Hd in Hrcpt, Hsub.
      split; apply existsb_false_filter; by apply negb_true_iff. }
  destruct Hold as [Hrs Hss].
  exists (user_profile_seq (db w)), (personal_recipient (db w)),
         (own_subscription (db w)).
  rewrite attr_of_saved_id, attrs_of_saved, Hd.
  unfold personal_recipients_of, subscriptions_linking.
  cbn [db saved_world with_heap with_db db_after_subscription db_after_recipient
       db_after_save insert_subscription insert_recipient insert_user_profile
       user_profiles recipients subscriptions].
  rewrite Hd. split; [reflexivity|]. split; [|split].
  - unfold saved_row. rewrite Hd. apply lookup_insert_eq.
  - rewrite filter_app, Hrs.
    rewrite filter_cons_True by (by split). reflexivity.
  - rewrite filter_app. cbn [recipient_id personal_recipient]. rewrite Hss.
    rewrite filter_cons_True by (by split). reflexivity.
Qed.

Lemma bind_inv {A B} (m : M A) (f : A -> M B) (w : World) o w' :
  (m ≫= f) w = (o, w') ->
  (exists a w1, m w = (Return a, w1) /\ f a w1 = (o, w'))
  \/ (exists e, m w = (Raise e, w') /\ o = Raise e).
Proof.
  rewrite bind_run. destruct (m w) as [[a|e] w1]; intros Hrun.
  - left. by exists a, w1.
  - right. exists e. by injection Hrun as <- <-.
Qed.

Lemma save_heap (l : loc) (w : World) o w1 :
  save l w = (o, w1) ->
  heap w1 = heap w \/ heap w1 = <[l := saved_row l w]> (heap w).
Proof.
  unfold save. intros Hrun.
  repeat case_match; simplify_eq; cbn [heap with_heap with_db]; auto.
Qed.

Lemma getattr_world (l : loc) n (w : World) o w1 : getattr l n w = (o, w1) -> w1 = w.
Proof. unfold getattr. intros Hrun. by case_match; simplify_eq. Qed.

Lemma Recipient_objects_create_heap v t (w : World) o w1 :
  Recipient_objects_create v t w = (o, w1) -> heap w1 = heap w.
Proof.
  unfold Recipient_objects_create. intros Hrun.
  by repeat case_match; simplify_eq.
Qed.

Lemma Subscription_objects_create_heap l r (w : World) o w1 :
  Subscription_objects_create l r w = (o, w1) -> heap w1 = heap w.
Proof.
  intros Hrun. apply bind_inv in Hrun as [(v & w0 & Hget & Hrun)|(e & Hget & _)].
  - apply getattr_world in Hget as ->. unfold raise in Hrun.
    by repeat case_match; simplify_eq.
  - by apply getattr_world in Hget as ->.
Qed.

(** Whatever its outcome, on whichever path of [save], [persist]
    changes at most the [id] of the object it is given, and what it
    returns is that object. *)
Lemma persist_heap (l : loc) (w : World) o w' :
  persist l w = (o, w') ->
  (heap w' = heap w \/ heap w' = <[l := saved_row l w]> (heap w))
  /\ (forall l', o = Return l' -> l' = l).
Proof.
  intros Hrun. unfold persist in Hrun.
  apply bind_inv in Hrun as [([] & w1 & Hsave & Hrun)|(e & Hsave & ->)];
    [|split; [by eapply save_heap | done]].
  apply save_heap in Hsave.
  cut (heap w' = heap w1 /\ (forall l', o = Return l' -> l' = l)).
  { intros [-> Hl]. by split. }
  apply bind_inv in Hrun as [(v & w2 & Hget & Hrun)|(e & Hget & ->)];
    [|by apply getattr_world in Hget as ->].
  apply getattr_world in Hget as ->.
  apply bind_inv in Hrun as [(r & w3 & Hrc & Hrun)|(e & Hrc & ->)];
    [|split; [by eapply Recipient_objects_create_heap | done]].
  apply Recipient_objects_create_heap in Hrc as <-.
  apply bind_inv in Hrun as [(s & w4 & Hsc & Hrun)|(e & Hsc & ->)];
    [|split; [by eapply Subscription_objects_create_heap | done]].
  apply Subscription_objects_create_heap in Hsc as <-.
  injection Hrun as <- <-. split; [done|]. by intros l' [= <-].
Qed.

Lemma persist_keeps_attrs (l : loc) (w : World) o w' n :
  persist l w = (o, w') -> n ≠ "id" -> attr_of w' l n = attr_of w l n.
Proof.
  intros Hrun Hn. destruct (persist_heap _ _ _ _ Hrun) as [Hheap _].
  unfold attr_of, attrs_of. destruct Hheap as [->| ->]; [reflexivity|].
  rewrite lookup_insert_eq. cbn [from_option id]. unfold saved_row.
  by rewrite lookup_insert_ne.
Qed.

(** An attribute the overlay does not write is, in the profile
    [create_user] returns, what the earlier statements made it. *)
Lemma create_user_keeps_attr (source_profile : option loc) (w : World)
    (user_profile : loc) (w' : World) (n : string) :
  create_user email password realm full_name short_name active is_realm_admin
    bot_type bot_owner tos_version timezone avatar_source is_mirror_dummy
    default_sending_stream default_events_register_stream
    default_all_public_streams source_profile w = (Return user_profile, w') ->
  n ≠ "id" ->
  source_profile = None \/ (n ≠ "full_name" /\ not_a_setting n) ->
  attr_of w' user_profile n =
  prepared_profile email password realm full_name short_name active
    is_realm_admin bot_type bot_owner tos_version timezone avatar_source
    is_mirror_dummy default_sending_stream default_events_register_stream
    default_all_public_streams (clock w) (api_key_of w) !! n.
Proof.
  intros Hrun Hn Hset.
  destruct (create_user_split _ _ _ _ Hrun) as (o1 & w2 & Hov & Hrest).
  destruct o1 as [[]|e]; [|by destruct Hrest].
  destruct (persist_heap _ _ _ _ Hrest) as [_ Hl].
  rewrite (Hl user_profile eq_refl).
  rewrite (persist_keeps_attrs _ _ _ _ _ Hrest Hn).
  rewrite (overlay_keeps _ _ _ _ _ _ Hset Hov).
  unfold attr_of. by rewrite attrs_of_prepared.
Qed.

(** C2: when bot_type is truthy or active is false, create_user_profile
    returns a profile whose password field is what set_password makes
    of None, which is not a usable password, whatever the password
    argument; and so does every call of create_user that returns,
    provided the overlay does not copy the password field. *)
Theorem bot_or_inactive_has_no_usable_password
    (profile_timezone tutorial_status : option string) (enter_sends : bool)
    (source_profile : option loc) (w : World) :
  truthy bot_type = true \/ active = false ->
  is_password_usable (make_password None) = false
  /\ (exists (user_profile : loc) (w' : World),
        create_user_profile realm email password active bot_type full_name
          short_name bot_owner is_mirror_dummy tos_version profile_timezone
          tutorial_status enter_sends w = (Return user_profile, w')
        /\ attr_of w' user_profile "password"
           = Some (VPassword (make_password None)))
  /\ (forall (user_profile : loc) (w' : World),
        source_profile = None \/ not_a_setting "password" ->
        create_user email password realm full_name short_name active
          is_realm_admin bot_type bot_owner tos_version timezone avatar_source
          is_mirror_dummy default_sending_stream default_events_register_stream
          default_all_public_streams source_profile w
        = (Return user_profile, w') ->
        attr_of w' user_profile "password"
        = Some (VPassword (make_password None))).
Proof.
  intros Hbot.
  assert (Hnone : (if truthy bot_type || negb active then None else password)
                  = None).
  { destruct Hbot as [-> | ->]; [reflexivity|].
    by rewrite orb_true_r. }
  split; [reflexivity|]. split.
  - eexists _, _. split; [apply create_user_profile_run|].
    unfold attr_of, attrs_of. cbn [heap].
    rewrite lookup_insert_eq. cbn [from_option id].
    pose proof (created_profile_lookup realm email password active bot_type
                  full_name short_name bot_owner is_mirror_dummy tos_version
                  profile_timezone tutorial_status enter_sends (clock w)
                  (api_key_of w))
      as (_ & _ & _ & _ & _ & _ & _ & Hpw & _).
    by rewrite Hpw, Hnone.
  - intros user_profile w' Hset Hrun.
    rewrite (create_user_keeps_attr _ _ _ _ "password" Hrun); [|done|].
    + pose proof (prepared_profile_lookup (clock w) (api_key_of w))
        as (_ & _ & _ & Hpw & _).
      cbv zeta in Hpw. by rewrite Hpw, Hnone.
    + destruct Hset as [->|?]; [by left | right; by split].
Qed.

(** C10: when create_user is called without a source profile and
    returns, the profile's default_all_public_streams is the argument
    when one was given, and otherwise what the model's own default made
    it when the object was constructed; the saved row holds the same. *)
Theorem create_user_default_all_public_streams (w : World)
    (user_profile : loc) (w' : World) :
  create_user email password realm full_name short_name active is_realm_admin
    bot_type bot_owner tos_version timezone avatar_source is_mirror_dummy
    default_sending_stream default_events_register_stream
    default_all_public_streams None w = (Return user_profile, w') ->
  attr_of w' user_profile "default_all_public_streams" =
    match default_all_public_streams with
    | Some flag => Some (VBool flag)
    | None => field_defaults !! "default_all_public_streams"
    end
  /\ exists pk row,
       attr_of w' user_profile "id" = Some (VInt pk)
       /\ user_profiles (db w') !! pk = Some row
       /\ row !! "default_all_public_streams"
          = attr_of w' user_profile "default_all_public_streams".
Proof.
  intros Hrun. split.
  - rewrite (create_user_keeps_attr _ _ _ _ "default_all_public_streams" Hrun);
      [|done|by left].
    apply prepared_profile_lookup.
  - destruct (create_user_returned None _ _ _ (or_introl eq_refl) Hrun)
      as (-> & w2 & _ & Hd & _ & _ & ->).
    exists (user_profile_seq (db w2)), (saved_row (fresh (dom (heap w))) w2).
    split; [apply attr_of_saved_id|].
    split.
    + cbn [db saved_world with_heap with_db db_after_subscription
           db_after_recipient db_after_save insert_subscription
           insert_recipient insert_user_profile user_profiles].
      apply lookup_insert_eq.
    + unfold attr_of. by rewrite attrs_of_saved.
Qed.

Lemma copy_loop_source_has names src tgt (w w' : World) :
  for_each names (copy_setting src tgt) w = (Return tt, w') ->
  forall n, n ∈ names -> is_Some (attr_of w src n).
Proof.
  revert w. induction names as [|m names IH]; intros w Hrun n Hn; [set_solver|].
  cbn [for_each] in Hrun. rewrite bind_run in Hrun.
  destruct (attr_of w src m) as [v|] eqn:Hv.
  - rewrite (copy_setting_returns _ _ _ _ _ Hv) in Hrun.
    apply elem_of_cons in Hn as [->|Hn]; [by exists v|].
    rewrite <- (copy_step_source src tgt m v w n Hv). by eapply IH.
  - by rewrite (copy_setting_raises _ _ _ _ Hv) in Hrun.
Qed.

Lemma copy_user_settings_returned src tgt (w w' : World) :
  copy_user_settings src tgt w = (Return tt, w') ->
  forall n, n ∈ copied_names -> attr_of w' tgt n = attr_of w src n.
Proof.
  rewrite copy_user_settings_as_loop. intros Hrun.
  destruct (copy_loop_returns copied_names src tgt w
              (copy_loop_source_has _ _ _ _ _ Hrun)) as (w'' & Hrun' & Hc & _).
  rewrite Hrun in Hrun'. by injection Hrun' as <-.
Qed.

(** C6, as the code has it: when create_user is given a source profile
    (an existing object) and returns, the returned profile's full name
    and every field named in property_types and
    notification_setting_types are the source's, not the arguments';
    its email is the normalized email argument. This holds provided
    neither the primary key nor the email is among the setting names. *)
Theorem create_user_overlay_takes_full_name (source : loc) (w : World)
    (user_profile : loc) (w' : World) :
  is_Some (heap w !! source) ->
  not_a_setting "id" -> not_a_setting "email" ->
  create_user email password realm full_name short_name active is_realm_admin
    bot_type bot_owner tos_version timezone avatar_source is_mirror_dummy
    default_sending_stream default_events_register_stream
    default_all_public_streams (Some source) w = (Return user_profile, w') ->
  attr_of w' user_profile "full_name" = attr_of w source "full_name"
  /\ (forall n, n ∈ property_types \/ n ∈ notification_setting_types ->
        attr_of w' user_profile n = attr_of w source n)
  /\ attr_of w' user_profile "email" = Some (VStr (normalize_email email)).
Proof.
  intros Hsrc Hid Hemail Hrun.
  assert (Hcopied : forall n, n ∈ copied_names ->
            attr_of w' user_profile n = attr_of w source n).
  { intros n Hn.
    assert (n ≠ "id") as Hne.
    { destruct Hid as [Hid1 Hid2].
      intros ->. apply elem_of_copied_names in Hn as [?|[?|?]]; [done | |];
        [by apply Hid1 | by apply Hid2]. }
    destruct (create_user_returned _ _ _ _ (or_intror Hid) Hrun)
      as (-> & w2 & Hov & _ & _ & _ & ->).
    rewrite (attr_of_saved_ne _ _ _ _ Hne).
    rewrite (copy_user_settings_returned _ _ _ _ Hov n Hn).
    unfold attr_of. by rewrite attrs_of_prepared_other. }
  split; [|split].
  - apply Hcopied, elem_of_copied_names. by left.
  - intros n Hn. apply Hcopied, elem_of_copied_names. by right.
  - rewrite (create_user_keeps_attr _ _ _ _ "email" Hrun); [|done|].
    + apply prepared_profile_lookup.
    + right. by split.
Qed.

(** The shapes a failing call can leave the database in: either nothing
    was written, or the Recipient was rejected and the profile row
    saved just before is in the database, or the Subscription was
    rejected and both the profile row and the Recipient are in the
    database. *)
Theorem create_user_failure_keeps_earlier_writes
    (source_profile : option loc) (w : World) (e : Exn) (w' : World) :
  source_profile = None \/ not_a_setting "id" ->
  create_user email password realm full_name short_name active is_realm_admin
    bot_type bot_owner tos_version timezone avatar_source is_mirror_dummy
    default_sending_stream default_events_register_stream
    default_all_public_streams source_profile w = (Raise e, w') ->
  let pk := user_profile_seq (db w) in
  db w' = db w
  \/ (exists row,
        db w' = insert_user_profile pk row (db w)
        /\ user_profiles (db w') !! pk = Some row
        /\ constraints_hold (db w') (InsertRecipient pk PERSONAL) = false)
  \/ (exists row,
        db w' = insert_recipient (personal_recipient (db w))
                  (insert_user_profile pk row (db w))
        /\ user_profiles (db w') !! pk = Some row
        /\ constraints_hold (db w')
             (InsertSubscription pk (recipient_seq (db w))) = false).
Proof.
  intros Hid Hrun pk.
  destruct (create_user_raised _ _ _ _ Hid Hrun)
    as (w2 & Hd & [Hsame | [[Hdb Hrej] | [Hdb Hrej]]]).
  - by left.
  - right; left. exists (saved_row (fresh (dom (heap w))) w2).
    rewrite Hdb. unfold db_after_save in *. rewrite Hd in *.
    split; [reflexivity|]. split; [apply lookup_insert_eq | exact Hrej].
  - right; right. exists (saved_row (fresh (dom (heap w))) w2).
    rewrite Hdb. unfold db_after_recipient, db_after_save in *. rewrite Hd in *.
    split; [reflexivity|]. split; [apply lookup_insert_eq | exact Hrej].
Qed.

(** ** The sequences stay ahead *)

Lemma sequences_ahead_save (d : Database) (row : gmap string Value) :
  sequences_ahead d ->
  sequences_ahead (insert_user_profile (user_profile_seq d) row d).
Proof.
  intros (Hu & Hr & Hs). repeat split; cbn.
  - apply map_Forall_insert_2; [lia|].
    eapply map_Forall_impl; [exact Hu|]. cbn. intros; lia.
  - eapply Forall_impl; [exact Hr|]. cbn. intros r [? Hp].
    split; [done|]. intros Hty. specialize (Hp Hty). lia.
  - eapply Forall_impl; [exact Hs|]. cbn. intros s (? & ? & ?).
    repeat split; lia.
Qed.

Lemma sequences_ahead_recipient (d : Database) (tid : Z) :
  tid < user_profile_seq d ->
  sequences_ahead d ->
  sequences_ahead
    (insert_recipient
       {| recipient_id := recipient_seq d; type_id := tid; type := PERSONAL |} d).
Proof.
  intros Htid (Hu & Hr & Hs). repeat split; cbn.
  - exact Hu.
  - apply Forall_app. split.
    + eapply Forall_impl; [exact Hr|]. cbn. intros r [? ?]. split; [lia|done].
    + repeat constructor; cbn; [lia | done].
  - eapply Forall_impl; [exact Hs|]. cbn. intros s (? & ? & ?).
    repeat split; lia.
Qed.

Lemma sequences_ahead_subscription (d : Database) (uid rid : Z) :
  uid < user_profile_seq d -> rid < recipient_seq d ->
  sequences_ahead d ->
  sequences_ahead
    (insert_subscription
       {| subscription_id := subscription_seq d; user_profile_id := uid;
          subscribed_recipient_id := rid |} d).
Proof.
  intros Huid Hrid (Hu & Hr & Hs). repeat split; cbn.
  - exact Hu.
  - exact Hr.
  - apply Forall_app. split.
    + eapply Forall_impl; [exact Hs|]. cbn. intros s (? & ? & ?).
      repeat split; lia.
    + repeat constructor; cbn; lia.
Qed.

Lemma sequences_ahead_after_save l (w : World) :
  sequences_ahead (db w) -> sequences_ahead (db_after_save l w).
Proof. apply sequences_ahead_save. Qed.

Lemma sequences_ahead_after_recipient l (w : World) :
  sequences_ahead (db w) -> sequences_ahead (db_after_recipient l w).
Proof.
  intros Hw. apply (sequences_ahead_after_save l) in Hw.
  unfold db_after_recipient, personal_recipient.
  change (recipient_seq (db w)) with (recipient_seq (db_after_save l w)).
  apply sequences_ahead_recipient; [cbn; lia | exact Hw].
Qed.

Lemma sequences_ahead_after_subscription l (w : World) :
  sequences_ahead (db w) -> sequences_ahead (db_after_subscription l w).
Proof.
  intros Hw. apply (sequences_ahead_after_recipient l) in Hw.
  unfold db_after_subscription, own_subscription.
  change (subscription_seq (db w))
    with (subscription_seq (db_after_recipient l w)).
  apply sequences_ahead_subscription; [cbn; lia | cbn; lia | exact Hw].
Qed.

(** X13: whatever its outcome, a call of create_user keeps the
    sequences ahead of the rows: if no row mentioned an identifier its
    table's sequence had not handed out before the call, none does
    after it. *)
Lemma create_user_keeps_sequences_ahead (source_profile : option loc)
    (w : World) o (w' : World) :
  source_profile = None \/ not_a_setting "id" ->
  sequences_ahead (db w) ->
  create_user email password realm full_name short_name active is_realm_admin
    bot_type bot_owner tos_version timezone avatar_source is_mirror_dummy
    default_sending_stream default_events_register_stream
    default_all_public_streams source_profile w = (o, w') ->
  sequences_ahead (db w').
Proof.
  intros Hid Hw Hrun. destruct o as [l|e].
  - destruct (create_user_returned _ _ _ _ Hid Hrun)
      as (_ & w2 & _ & Hd & _ & _ & ->).
    cbn [db saved_world with_heap with_db].
    apply sequences_ahead_after_subscription. by rewrite Hd.
  - destruct (create_user_raised _ _ _ _ Hid Hrun)
      as (w2 & Hd & [-> | [[-> _] | [-> _]]]).
    + exact Hw.
    + apply sequences_ahead_after_save. by rewrite Hd.
    + apply sequences_ahead_after_recipient. by rewrite Hd.
Qed.

End CreateUserCall.

End Properties.

(** * The worked instance *)

Lemma run_returns {A} (m : M A) (w : World) (a : A) :
  (m w).1 = Return a -> m w = (Return a, (m w).2).
Proof. destruct (m w) as [o w1]. cbn. by intros ->. Qed.

Lemma run_raises {A} (m : M A) (w : World) (e : Exn) :
  (m w).1 = Raise e -> m w = (Raise e, (m w).2).
Proof. destruct (m w) as [o w1]. cbn. by intros ->. Qed.

Lemma example_not_a_setting_id : @not_a_setting example_models "id".
Proof. split; apply (bool_decide_unpack _); vm_compute; exact I. Qed.

Lemma example_not_a_setting_email : @not_a_setting example_models "email".
Proof. split; apply (bool_decide_unpack _); vm_compute; exact I. Qed.

Lemma example_not_a_setting_password : @not_a_setting example_models "password".
Proof. split; apply (bool_decide_unpack _); vm_compute; exact I. Qed.

Lemma example_sequences_ahead : sequences_ahead (db example_world).
Proof. apply (bool_decide_unpack _). vm_compute. exact I. Qed.

Lemma iago_has_every_setting (n : string) :
  n = "full_name" \/ n ∈ @property_types example_models
  \/ n ∈ @notification_setting_types example_models ->
  is_Some (attr_of two_profiles 1%positive n).
Proof.
  intros [->|[Hn|Hn]]; [by eexists| |]; cbn in Hn;
    repeat (apply elem_of_cons in Hn as [->|Hn]);
    try (by apply elem_of_nil in Hn); by eexists.
Qed.

(** Copying Iago's settings to Hamlet. *)
Lemma copy_user_settings_copies_witness :
  exists w',
    @copy_user_settings example_models 1%positive 2%positive two_profiles
    = (Return tt, w')
    /\ forall n, n = "full_name" \/ n ∈ @property_types example_models
                 \/ n ∈ @notification_setting_types example_models ->
         attr_of w' 2%positive n = attr_of two_profiles 1%positive n
         /\ attr_of w' 2%positive n = attr_of w' 1%positive n.
Proof.
  apply (copy_user_settings_copies (models := example_models)
           1%positive 2%positive two_profiles).
  exact iago_has_every_setting.
Defined.

(** Creating Othello from Iago's settings in a consistent database. *)
Lemma create_user_one_recipient_one_subscription_witness :
  exists (pk : Z) (recipient : Recipient) (subscription : Subscription),
    let w' := (example_call true None None (Some 1%positive) example_world).2 in
    attr_of w' 2%positive "id" = Some (VInt pk)
    /\ user_profiles (db w') !! pk = Some (attrs_of w' 2%positive)
    /\ personal_recipients_of pk (db w') = [recipient]
    /\ subscriptions_linking pk (recipient_id recipient) (db w') = [subscription].
Proof.
  apply (create_user_one_recipient_one_subscription (models := example_models)
           "Othello@Zulip.COM" (Some "secret") example_realm "Othello" "othello"
           true false None None None "" "G" false None None None
           (Some 1%positive) example_world 2%positive
           (example_call true None None (Some 1%positive) example_world).2).
  - left. exact example_sequences_ahead.
  - right. exact example_not_a_setting_id.
  - apply run_returns. vm_compute. reflexivity.
Defined.

(** Creating a bot. *)
Lemma bot_or_inactive_has_no_usable_password_witness :
  is_password_usable (make_password None) = false
  /\ (exists (user_profile : loc) (w' : World),
        @create_user_profile example_models example_realm "Othello@Zulip.COM"
          (Some "secret") true (Some 1) "Othello" "othello" None false None
          (Some "") (Some "W") false example_world = (Return user_profile, w')
        /\ attr_of w' user_profile "password"
           = Some (VPassword (make_password None)))
  /\ (forall (user_profile : loc) (w' : World),
        Some 1%positive = None \/ @not_a_setting example_models "password" ->
        example_call true (Some 1) None (Some 1%positive) example_world
        = (Return user_profile, w') ->
        attr_of w' user_profile "password"
        = Some (VPassword (make_password None))).
Proof.
  apply (bot_or_inactive_has_no_usable_password (models := example_models)
           "Othello@Zulip.COM" (Some "secret") example_realm "Othello" "othello"
           true false (Some 1) None None "" "G" false None None None
           (Some "") (Some "W") false (Some 1%positive) example_world).
  left. reflexivity.
Defined.

(** C3 as stated fails: with a personal Recipient left over for the
    next primary key, the Recipient is rejected, create_user raises,
    and the profile row it saved for that key is in the database. *)
Lemma create_user_leaves_profile_behind :
  let r := example_call true None None None stale_world in
  r.1 = Raise IntegrityError
  /\ user_profiles (db stale_world) !! 2 = None
  /\ (user_profiles (db r.2) !! 2) ≫= (.!! "email")
     = Some (VStr "Othello@zulip.com").
Proof.
  cbv zeta. split; [vm_compute; reflexivity|].
  split; vm_compute; reflexivity.
Qed.

Lemma create_user_failure_keeps_earlier_writes_witness :
  let w' := (example_call true None None None stale_world).2 in
  let pk := user_profile_seq (db stale_world) in
  db w' = db stale_world
  \/ (exists row,
        db w' = insert_user_profile pk row (db stale_world)
        /\ user_profiles (db w') !! pk = Some row
        /\ @constraints_hold example_models (db w')
             (InsertRecipient pk PERSONAL) = false)
  \/ (exists row,
        db w' = insert_recipient (personal_recipient (db stale_world))
                  (insert_user_profile pk row (db stale_world))
        /\ user_profiles (db w') !! pk = Some row
        /\ @constraints_hold example_models (db w')
             (InsertSubscription pk (recipient_seq (db stale_world))) = false).
Proof.
  apply (create_user_failure_keeps_earlier_writes (models := example_models)
           "Othello@Zulip.COM" (Some "secret") example_realm "Othello" "othello"
           true false None None None "" "G" false None None None
           None stale_world IntegrityError
           (example_call true None None None stale_world).2).
  - left. reflexivity.
  - apply run_raises. vm_compute. reflexivity.
Defined.

(** C6 as stated fails: create_user is passed the full name Othello and
    Iago as source profile, and the profile it returns is named Iago. *)
Lemma create_user_full_name_overridden :
  let r := example_call true None None (Some 1%positive) example_world in
  r.1 = Return 2%positive
  /\ attr_of r.2 2%positive "full_name" = Some (VStr "Iago")
  /\ attr_of r.2 2%positive "full_name" ≠ Some (VStr "Othello").
Proof.
  cbv zeta. split; [vm_compute; reflexivity|].
  assert (Hname : attr_of (example_call true None None (Some 1%positive)
                             example_world).2 2%positive "full_name"
                  = Some (VStr "Iago")) by (vm_compute; reflexivity).
  split; [exact Hname|]. rewrite Hname. discriminate.
Qed.

Lemma create_user_overlay_takes_full_name_witness :
  let w' := (example_call true None None (Some 1%positive) example_world).2 in
  attr_of w' 2%positive "full_name" = attr_of example_world 1%positive "full_name"
  /\ (forall n, n ∈ @property_types example_models
                \/ n ∈ @notification_setting_types example_models ->
        attr_of w' 2%positive n = attr_of example_world 1%positive n)
  /\ attr_of w' 2%positive "email"
     = Some (VStr (@normalize_email example_models "Othello@Zulip.COM")).
Proof.
  apply (create_user_overlay_takes_full_name (models := example_models)
           "Othello@Zulip.COM" (Some "secret") example_realm "Othello" "othello"
           true false None None None "" "G" false None None None
           1%positive example_world 2%positive
           (example_call true None None (Some 1%positive) example_world).2).
  - by eexists.
  - exact example_not_a_setting_id.
  - exact example_not_a_setting_email.
  - apply run_returns. vm_compute. reflexivity.
Defined.

(** Creating Othello without a source profile and without a value for
    default_all_public_streams. *)
Lemma create_user_default_all_public_streams_witness :
  let w' := (example_call true None None None example_world).2 in
  attr_of w' 2%positive "default_all_public_streams"
  = @field_defaults example_models !! "default_all_public_streams"
  /\ exists pk row,
       attr_of w' 2%positive "id" = Some (VInt pk)
       /\ user_profiles (db w') !! pk = Some row
       /\ row !! "default_all_public_streams"
          = attr_of w' 2%positive "default_all_public_streams".
Proof.
  apply (create_user_default_all_public_streams (models := example_models)
           "Othello@Zulip.COM" (Some "secret") example_realm "Othello" "othello"
           true false None None None "" "G" false None None None
           example_world 2%positive
           (example_call true None None None example_world).2).
  apply run_returns. vm_compute. reflexivity.
Defined.

(** * Further properties *)

(** ** The API key *)

(** X1: every call of random_api_key returns a key made only of ASCII
    letters and digits: it contains no '+', no '/' and no padding. *)
Theorem random_api_key_alphanumeric (w : World) :
  exists (key : string) (w' : World),
    random_api_key w = (Return key, w')
    /\ Forall (fun c => char_in (ascii_letters ++ digits) c = true
                        /\ c ≠ "+"%char /\ c ≠ "/"%char /\ c ≠ "="%char)
         (String.list_ascii_of_string key).
Proof.
  exists (api_key_of w), (with_consumed (consumed w + 26) w).
  split; [apply random_api_key_run|].
  assert (Hlen : length (api_key_payload w) = (3 * 8)%nat).
  { unfold api_key_payload. rewrite length_fmap, length_seq. reflexivity. }
  destruct (b64encode_alphanumeric 8 (api_key_payload w)
              (choice_of (entropy w (consumed w)))
              (choice_of (entropy w (consumed w + 1)))
              Hlen (choice_alphanumeric _) (choice_alphanumeric _))
    as (_ & Hall & _).
  eapply Forall_impl; [exact Hall|]. intros c Hc.
  split; [exact Hc|].
  repeat split; intros ->; vm_compute in Hc; discriminate.
Qed.

(** X2: the key does not determine the bytes it encodes. Whatever
    letter or digit stands in for '+', two different 24-byte payloads
    have the same encoding: one whose first sextet is 62 and one whose
    first sextet is that of the stand-in itself. *)
Theorem b64encode_alphanumeric_collision (alt0 alt1 : ascii) :
  char_in (ascii_letters ++ digits) alt0 = true ->
  exists p1 p2 : list byte,
    length p1 = 24%nat /\ length p2 = 24%nat /\ p1 ≠ p2
    /\ b64encode p1 alt0 alt1 = b64encode p2 alt0 alt1.
Proof.
  intros Halt.
  exists (payload_from xf8),
         (payload_from (default x00 (Byte.of_N (4 * sextet_of alt0)))).
  split; [reflexivity|]. split; [reflexivity|].
  destruct alt0 as [[] [] [] [] [] [] [] []];
    vm_compute in Halt; try discriminate Halt;
    (split; [vm_compute; intros [=] | vm_compute; reflexivity]).
Qed.

Section FurtherProperties.
Context {models : Models}.

(** ** copy_user_settings *)

(** X3: copying a profile's settings onto the profile itself changes
    nothing, whatever the outcome of the call. *)
Theorem copy_user_settings_onto_itself (profile : loc) (w : World) :
  (copy_user_settings profile profile w).2 = w.
Proof.
  destruct (copy_user_settings profile profile w) as [o w'] eqn:Hrun.
  rewrite copy_user_settings_as_loop in Hrun.
  exact (copy_loop_self _ _ _ _ _ Hrun).
Qed.

Lemma copy_loop_settled names src tgt (w : World) :
  (forall n, n ∈ names ->
     is_Some (attr_of w src n) /\ attr_of w tgt n = attr_of w src n) ->
  for_each names (copy_setting src tgt) w = (Return tt, w).
Proof.
  induction names as [|n names IH]; intros Hset; [reflexivity|].
  destruct (Hset n) as [[v Hv] Ht]; [set_solver|].
  cbn [for_each]. rewrite bind_run, (copy_setting_returns _ _ _ _ _ Hv).
  rewrite store_attr_same_value by (by rewrite Ht).
  apply IH. intros m Hm. apply Hset. set_solver.
Qed.

(** X4: copy_user_settings is idempotent: after a call that returned, a
    second call with the same source and target returns and changes
    nothing. *)
Theorem copy_user_settings_idempotent (source_profile target_profile : loc)
    (w w1 : World) :
  copy_user_settings source_profile target_profile w = (Return tt, w1) ->
  copy_user_settings source_profile target_profile w1 = (Return tt, w1).
Proof.
  intros Hrun. rewrite copy_user_settings_as_loop in Hrun |- *.
  pose proof (copy_loop_source_has _ _ _ _ _ Hrun) as Hhas.
  destruct (copy_loop_returns copied_names source_profile target_profile w Hhas)
    as (w1' & Hrun' & Hcopied & Hsame).
  rewrite Hrun in Hrun'. injection Hrun' as <-.
  apply copy_loop_settled. intros n Hn.
  rewrite Hsame, (Hcopied n Hn). split; [by apply Hhas | reflexivity].
Qed.

(** X5: when the source lacks one of the fields, copy_user_settings
    raises AttributeError for the first missing name in the order
    property_types, notification_setting_types, full_name; the names
    before it have already been copied to the target. *)
Theorem copy_user_settings_missing_field (source_profile target_profile : loc)
    (before after : list string) (name : string) (w : World) :
  copied_names = (before ++ name :: after)%list ->
  Forall (fun n => is_Some (attr_of w source_profile n)) before ->
  attr_of w source_profile name = None ->
  exists w',
    copy_user_settings source_profile target_profile w
    = (Raise (AttributeError name), w')
    /\ Forall (fun n => attr_of w' target_profile n = attr_of w source_profile n)
         before.
Proof.
  intros Hnames Hbefore Hmissing.
  destruct (copy_loop_returns before source_profile target_profile w)
    as (w1 & Hrun & Hcopied & Hsame).
  { intros n Hn. by eapply Forall_forall in Hbefore. }
  exists w1. split.
  - rewrite copy_user_settings_as_loop, Hnames, for_each_app, bind_run, Hrun.
    cbn [for_each]. rewrite bind_run.
    rewrite copy_setting_raises; [reflexivity|]. by rewrite Hsame.
  - apply Forall_forall. intros n Hn. by apply Hcopied.
Qed.

(** X15: copies chain: after copying from a first profile to a second
    and then from the second to a third, the third has the first's
    full name and settings as they were at the start. *)
Theorem copy_user_settings_chain (first second third : loc) (w w1 w2 : World) :
  copy_user_settings first second w = (Return tt, w1) ->
  copy_user_settings second third w1 = (Return tt, w2) ->
  forall n, n = "full_name" \/ n ∈ property_types
            \/ n ∈ notification_setting_types ->
    attr_of w2 third n = attr_of w first n.
Proof.
  intros Hrun1 Hrun2 n Hn. apply elem_of_copied_names in Hn.
  rewrite (copy_user_settings_returned _ _ _ _ Hrun2 n Hn).
  exact (copy_user_settings_returned _ _ _ _ Hrun1 n Hn).
Qed.

(** ** create_user_profile *)

(** X6: for an active account that is not a bot, create_user_profile
    hashes the password as given, so the profile has a usable password
    exactly when a password was passed. *)
Theorem create_user_profile_active_password realm email password active bot_type
    full_name short_name bot_owner is_mirror_dummy tos_version timezone
    tutorial_status enter_sends (w : World) :
  truthy bot_type = false -> active = true ->
  exists (user_profile : loc) (w' : World),
    create_user_profile realm email password active bot_type full_name
      short_name bot_owner is_mirror_dummy tos_version timezone
      tutorial_status enter_sends w = (Return user_profile, w')
    /\ attr_of w' user_profile "password"
       = Some (VPassword (make_password password))
    /\ (is_password_usable (make_password password) = true <-> password ≠ None).
Proof.
  intros Hbot ->.
  eexists _, _. split; [apply create_user_profile_run|].
  unfold attr_of, attrs_of. cbn [heap].
  rewrite lookup_insert_eq. cbn [from_option id].
  pose proof (created_profile_lookup realm email password true bot_type
                full_name short_name bot_owner is_mirror_dummy tos_version
                timezone tutorial_status enter_sends (clock w) (api_key_of w))
    as (_ & _ & _ & _ & _ & _ & _ & Hpw & _).
  rewrite Hpw, Hbot. split; [reflexivity|].
  destruct password; cbn; split; congruence.
Qed.

(** X7: the profile create_user_profile returns carries, as api_key,
    a key of the form random_api_key produces: the base64 text of 24
    bytes with '+' and '/' replaced by two letters or digits; it has 32
    characters, all of them letters or digits. *)
Theorem create_user_profile_api_key realm email password active bot_type
    full_name short_name bot_owner is_mirror_dummy tos_version timezone
    tutorial_status enter_sends (w : World) :
  exists (user_profile : loc) (w' : World)
         (alt0 alt1 : ascii) (payload : list byte),
    create_user_profile realm email password active bot_type full_name
      short_name bot_owner is_mirror_dummy tos_version timezone
      tutorial_status enter_sends w = (Return user_profile, w')
    /\ attr_of w' user_profile "api_key"
       = Some (VStr (b64encode payload alt0 alt1))
    /\ length payload = 24%nat
    /\ char_in (ascii_letters ++ digits) alt0 = true
    /\ char_in (ascii_letters ++ digits) alt1 = true
    /\ String.length (b64encode payload alt0 alt1) = 32%nat
    /\ Forall (fun c => char_in (ascii_letters ++ digits) c = true)
         (String.list_ascii_of_string (b64encode payload alt0 alt1)).
Proof.
  eexists _, _, (choice_of (entropy w (consumed w))),
    (choice_of (entropy w (consumed w + 1))), (api_key_payload w).
  split; [apply create_user_profile_run|].
  unfold attr_of, attrs_of. cbn [heap].
  rewrite lookup_insert_eq. cbn [from_option id].
  split; [unfold created_profile; apply lookup_insert_eq|].
  assert (Hlen : length (api_key_payload w) = (3 * 8)%nat).
  { unfold api_key_payload. rewrite length_fmap, length_seq. reflexivity. }
  destruct (b64encode_alphanumeric 8 (api_key_payload w)
              (choice_of (entropy w (consumed w)))
              (choice_of (entropy w (consumed w + 1)))
              Hlen (choice_alphanumeric _) (choice_alphanumeric _))
    as (Hl & Hall & _).
  split; [exact Hlen|].
  split; [apply choice_alphanumeric|]. split; [apply choice_alphanumeric|].
  split; [exact Hl | exact Hall].
Qed.

(** ** create_user *)

Section FurtherCalls.
Variables (email : string) (password : option string) (realm : Realm)
  (full_name short_name : string) (active : bool) (is_realm_admin : bool)
  (bot_type : option Z) (bot_owner : option loc) (tos_version : option string)
  (timezone : string) (avatar_source : string) (is_mirror_dummy : bool)
  (default_sending_stream default_events_register_stream : option loc)
  (default_all_public_streams : option bool).

(** The key [save] hands out was free. *)
Lemma create_user_returned_free_key (source_profile : option loc) (w : World)
    (user_profile : loc) (w' : World) :
  source_profile = None \/ not_a_setting "id" ->
  create_user email password realm full_name short_name active is_realm_admin
    bot_type bot_owner tos_version timezone avatar_source is_mirror_dummy
    default_sending_stream default_events_register_stream
    default_all_public_streams source_profile w = (Return user_profile, w') ->
  user_profiles (db w) !! user_profile_seq (db w) = None.
Proof.
  intros Hid Hrun.
  destruct (create_user_returned _ _ _ _ _ _ _ _ _ _ _ _ _ _ _ _ _ _ _ _
              Hid Hrun) as (-> & w2 & Hov & Hd & _ & _ & ->).
  rewrite create_user_unfold, (bind_returns _ _ _ _ _ Hov) in Hrun.
  assert (Hpk : attr_of w2 (fresh (dom (heap w))) "id" = Some VNone).
  { assert (Hn : source_profile = None
                 \/ ("id" ≠ "full_name" /\ not_a_setting "id")).
    { destruct Hid as [->|?]; [by left | right; by split]. }
    rewrite (overlay_keeps _ _ _ _ _ _ Hn Hov).
    unfold attr_of. rewrite attrs_of_prepared. apply prepared_profile_lookup. }
  rewrite (persist_run _ _ Hpk), Hd in Hrun.
  destruct (constraints_hold (db w)
              (InsertUserProfile (attrs_of w2 (fresh (dom (heap w))))));
    cbn [andb negb] in Hrun; [|discriminate].
  destruct (bool_decide (user_profiles (db w) !! user_profile_seq (db w) = None))
    eqn:Hfree; cbn [negb] in Hrun; [|discriminate].
  by apply bool_decide_eq_true in Hfree.
Qed.

(** X8: a call of create_user that returns adds exactly one row to each
    table and changes no row that was there: the profile's row under a
    key that was free, the personal Recipient and the Subscription at
    the end of their tables; each sequence advances by one. *)
Theorem create_user_adds_one_row_each (source_profile : option loc) (w : World)
    (user_profile : loc) (w' : World) :
  source_profile = None \/ not_a_setting "id" ->
  create_user email password realm full_name short_name active is_realm_admin
    bot_type bot_owner tos_version timezone avatar_source is_mirror_dummy
    default_sending_stream default_events_register_stream
    default_all_public_streams source_profile w = (Return user_profile, w') ->
  let pk := user_profile_seq (db w) in
  user_profiles (db w) !! pk = None
  /\ user_profiles (db w')
     = <[pk := attrs_of w' user_profile]> (user_profiles (db w))
  /\ recipients (db w')
     = (recipients (db w)
        ++ [ {| recipient_id := recipient_seq (db w); type_id := pk;
                type := PERSONAL |} ])%list
  /\ subscriptions (db w')
     = (subscriptions (db w)
        ++ [ {| subscription_id := subscription_seq (db w);
                user_profile_id := pk;
                subscribed_recipient_id := recipient_seq (db w) |} ])%list
  /\ user_profile_seq (db w') = pk + 1
  /\ recipient_seq (db w') = recipient_seq (db w) + 1
  /\ subscription_seq (db w') = subscription_seq (db w) + 1.
Proof.
  intros Hid Hrun pk.
  split; [exact (create_user_returned_free_key _ _ _ _ Hid Hrun)|].
  destruct (create_user_returned _ _ _ _ _ _ _ _ _ _ _ _ _ _ _ _ _ _ _ _
              Hid Hrun) as (-> & w2 & _ & Hd & _ & _ & ->).
  rewrite attrs_of_saved.
  cbn [db saved_world with_heap with_db db_after_subscription db_after_recipient
       db_after_save insert_subscription insert_recipient insert_user_profile
       user_profiles recipients subscriptions user_profile_seq recipient_seq
       subscription_seq personal_recipient own_subscription].
  rewrite Hd. by repeat split.
Qed.

(** X9: whatever its outcome, create_user leaves every object that
    existed before the call, the source profile among them, as it
    was. *)
Theorem create_user_keeps_existing_objects (source_profile : option loc)
    (w : World) (l : loc) :
  is_Some (heap w !! l) ->
  heap (create_user email password realm full_name short_name active
          is_realm_admin bot_type bot_owner tos_version timezone avatar_source
          is_mirror_dummy default_sending_stream default_events_register_stream
          default_all_public_streams source_profile w).2 !! l
  = heap w !! l.
Proof.
  intros Hl.
  destruct (create_user email password realm full_name short_name active
              is_realm_admin bot_type bot_owner tos_version timezone
              avatar_source is_mirror_dummy default_sending_stream
              default_events_register_stream default_all_public_streams
              source_profile w) as [o w'] eqn:Hrun.
  cbn [snd].
  assert (Hne : l ≠ fresh (dom (heap w))).
  { intros ->. rewrite fresh_location_unused in Hl. by destruct Hl. }
  destruct (create_user_split _ _ _ _ _ _ _ _ _ _ _ _ _ _ _ _ _ _ _ _ Hrun)
    as (o1 & w2 & Hov & Hrest).
  destruct (overlay_frame _ _ _ _ _ Hov) as (_ & _ & _ & _ & Hheap & _).
  assert (Hw2 : heap w2 !! l = heap w !! l).
  { rewrite (Hheap l Hne). cbn [heap prepared_world].
    by rewrite lookup_insert_ne. }
  destruct o1 as [[]|e]; [|destruct Hrest as [_ ->]; exact Hw2].
  destruct (persist_heap _ _ _ _ Hrest) as [[-> | ->] _]; [exact Hw2|].
  by rewrite lookup_insert_ne.
Qed.

Lemma copy_loop_missing names src tgt (w : World) n :
  n ∈ names -> attr_of w src n = None ->
  exists m w',
    for_each names (copy_setting src tgt) w = (Raise (AttributeError m), w')
    /\ m ∈ names /\ attr_of w src m = None.
Proof.
  revert w. induction names as [|h names IH]; intros w Hn Hmiss; [set_solver|].
  cbn [for_each]. rewrite bind_run.
  destruct (attr_of w src h) as [v|] eqn:Hv.
  - rewrite (copy_setting_returns _ _ _ _ _ Hv).
    apply elem_of_cons in Hn as [->|Hn]; [congruence|].
    destruct (IH (store_attr tgt h v w) Hn) as (m & w' & Hrun & Hm & Hnone).
    { by rewrite copy_step_source. }
    exists m, w'. split; [exact Hrun|]. split; [set_solver|].
    by rewrite copy_step_source in Hnone.
  - rewrite (copy_setting_raises _ _ _ _ Hv).
    exists h, w. split; [reflexivity|]. split; [set_solver | exact Hv].
Qed.

(** X10: when the source profile is an existing object that lacks one
    of the copied fields, create_user raises AttributeError for a field
    the source lacks, before anything is written: the database is as it
    was. *)
Theorem create_user_incomplete_source (source : loc) (w : World) (n : string) :
  is_Some (heap w !! source) ->
  n ∈ copied_names -> attr_of w source n = None ->
  exists (m : string) (w' : World),
    create_user email password realm full_name short_name active is_realm_admin
      bot_type bot_owner tos_version timezone avatar_source is_mirror_dummy
      default_sending_stream default_events_register_stream
      default_all_public_streams (Some source) w = (Raise (AttributeError m), w')
    /\ m ∈ copied_names /\ attr_of w source m = None
    /\ db w' = db w.
Proof.
  intros Hsrc Hn Hmiss.
  set (w1 := prepared_world
               (prepared_profile email password realm full_name short_name
                  active is_realm_admin bot_type bot_owner tos_version timezone
                  avatar_source is_mirror_dummy default_sending_stream
                  default_events_register_stream default_all_public_streams
                  (clock w) (api_key_of w)) w).
  assert (Hsame : forall k, attr_of w1 source k = attr_of w source k).
  { intros k. unfold attr_of, w1. by rewrite attrs_of_prepared_other. }
  destruct (copy_loop_missing copied_names source (fresh (dom (heap w))) w1 n Hn)
    as (m & w' & Hrun & Hm & Hnone); [by rewrite Hsame|].
  exists m, w'. rewrite create_user_unfold, bind_run. fold w1.
  rewrite copy_user_settings_as_loop, Hrun.
  split; [reflexivity|]. split; [exact Hm|]. split; [by rewrite <- Hsame|].
  by destruct (copy_loop_frame _ _ _ _ _ _ Hrun) as (Hd & _).
Qed.

Lemma existsb_false_of_none {A} (P : A -> Prop) `{!forall x, Decision (P x)}
    (xs : list A) :
  Forall (fun x => ~ P x) xs -> existsb (fun x => bool_decide (P x)) xs = false.
Proof.
  induction 1 as [|x xs Hx _ IH]; [reflexivity|].
  cbn [existsb]. rewrite IH, orb_false_r. by apply bool_decide_eq_false.
Qed.

(** X11: create_user returns whenever the schema rejects nothing but
    duplicate Recipients and Subscriptions, the rows of the database
    only mention identifiers its sequences have handed out, and the
    source profile, if one is given, is an existing object that has
    every copied field (the primary key not being one of them). *)
Theorem create_user_returns (source_profile : option loc) (w : World) :
  (forall d wr, unique_rows d wr = true -> constraints_hold d wr = true) ->
  sequences_ahead (db w) ->
  (forall source, source_profile = Some source ->
     is_Some (heap w !! source) /\ not_a_setting "id"
     /\ forall n, n ∈ copied_names -> is_Some (attr_of w source n)) ->
  exists (user_profile : loc) (w' : World),
    create_user email password realm full_name short_name active is_realm_admin
      bot_type bot_owner tos_version timezone avatar_source is_mirror_dummy
      default_sending_stream default_events_register_stream
      default_all_public_streams source_profile w = (Return user_profile, w').
Proof.
  intros Hschema (Hu & Hrs & Hss) Hsource.
  set (l := fresh (dom (heap w))).
  set (w1 := prepared_world
               (prepared_profile email password realm full_name short_name
                  active is_realm_admin bot_type bot_owner tos_version timezone
                  avatar_source is_mirror_dummy default_sending_stream
                  default_events_register_stream default_all_public_streams
                  (clock w) (api_key_of w)) w).
  assert (Hov : exists w2,
    (match source_profile with
     | Some source => copy_user_settings source l
     | None => mret tt
     end) w1 = (Return tt, w2)).
  { destruct source_profile as [source|]; [|by exists w1].
    destruct (Hsource source eq_refl) as (Hsrc & _ & Hhas).
    destruct (copy_loop_returns copied_names source l w1) as (w2 & Hrun & _).
    { intros n Hn. unfold attr_of, w1. rewrite attrs_of_prepared_other by done.
      by apply Hhas. }
    exists w2. by rewrite copy_user_settings_as_loop. }
  destruct Hov as [w2 Hov].
  assert (Hd : db w2 = db w).
  { by destruct (overlay_frame _ _ _ _ _ Hov) as (Hd & _). }
  assert (Hpk : attr_of w2 l "id" = Some VNone).
  { assert (Hn : source_profile = None
                 \/ ("id" ≠ "full_name" /\ not_a_setting "id")).
    { destruct source_profile as [source|]; [|by left].
      destruct (Hsource source eq_refl) as (_ & Hid & _). right. by split. }
    rewrite (overlay_keeps _ _ _ _ _ _ Hn Hov).
    unfold attr_of, w1, l. rewrite attrs_of_prepared.
    apply prepared_profile_lookup. }
  exists l, (saved_world l (db_after_subscription l w2) w2).
  rewrite create_user_unfold. fold l w1.
  rewrite (bind_returns _ _ _ _ _ Hov), (persist_run _ _ Hpk), Hd.
  rewrite (Hschema (db w) (InsertUserProfile (attrs_of w2 l)) eq_refl).
  assert (Hfree : user_profiles (db w) !! user_profile_seq (db w) = None).
  { destruct (user_profiles (db w) !! user_profile_seq (db w)) as [row|] eqn:Hrow;
      [|done]. specialize (Hu _ _ Hrow). cbn in Hu. lia. }
  rewrite (bool_decide_eq_true_2 _ Hfree). cbn [andb negb].
  rewrite (Hschema (db_after_save l w2)
             (InsertRecipient (user_profile_seq (db w)) PERSONAL)).
  2:{ cbn [unique_rows db_after_save insert_user_profile recipients].
      rewrite Hd. apply negb_true_iff, existsb_false_of_none.
      eapply Forall_impl; [exact Hrs|]. intros r [_ Hr] [Ht Hpk'].
      specialize (Hr Ht). lia. }
  cbn [negb].
  rewrite (Hschema (db_after_recipient l w2)
             (InsertSubscription (user_profile_seq (db w)) (recipient_seq (db w)))).
  2:{ cbn [unique_rows db_after_recipient db_after_save insert_user_profile
           insert_recipient subscriptions].
      rewrite Hd. apply negb_true_iff, existsb_false_of_none.
      eapply Forall_impl; [exact Hss|]. intros s (_ & _ & Hs) [_ Hrid]. lia. }
  reflexivity.
Qed.

(** X12: two calls of create_user in a row that both return give two
    different objects with consecutive primary keys, whatever the
    arguments of the second call (its email included: create_user
    itself compares nothing with the profiles already there). *)
Theorem create_user_twice (source_profile : option loc) (w : World)
    (first : loc) (w1 : World)
    (email' : string) (password' : option string) (realm' : Realm)
    (full_name' short_name' : string) (active' is_realm_admin' : bool)
    (bot_type' : option Z) (bot_owner' : option loc)
    (tos_version' : option string) (timezone' avatar_source' : string)
    (is_mirror_dummy' : bool)
    (default_sending_stream' default_events_register_stream' : option loc)
    (default_all_public_streams' : option bool) (source_profile' : option loc)
    (second : loc) (w2 : World) :
  not_a_setting "id" ->
  create_user email password realm full_name short_name active is_realm_admin
    bot_type bot_owner tos_version timezone avatar_source is_mirror_dummy
    default_sending_stream default_events_register_stream
    default_all_public_streams source_profile w = (Return first, w1) ->
  create_user email' password' realm' full_name' short_name' active'
    is_realm_admin' bot_type' bot_owner' tos_version' timezone' avatar_source'
    is_mirror_dummy' default_sending_stream' default_events_register_stream'
    default_all_public_streams' source_profile' w1 = (Return second, w2) ->
  first ≠ second
  /\ exists pk : Z,
       attr_of w1 first "id" = Some (VInt pk)
       /\ attr_of w2 second "id" = Some (VInt (pk + 1)).
Proof.
  intros Hid Hrun1 Hrun2.
  destruct (create_user_returned _ _ _ _ _ _ _ _ _ _ _ _ _ _ _ _ _ _ _ _
              (or_intror Hid) Hrun1) as (-> & v1 & _ & Hd1 & _ & _ & ->).
  destruct (create_user_returned _ _ _ _ _ _ _ _ _ _ _ _ _ _ _ _ _ _ _ _
              (or_intror Hid) Hrun2) as (-> & v2 & _ & Hd2 & _ & _ & ->).
  split.
  - intros Heq.
    pose proof (fresh_location_unused
                  (saved_world (fresh (dom (heap w)))
                     (db_after_subscription (fresh (dom (heap w))) v1) v1))
      as Hfresh.
    rewrite <- Heq in Hfresh. cbn [heap saved_world with_heap with_db] in Hfresh.
    by rewrite lookup_insert_eq in Hfresh.
  - exists (user_profile_seq (db w)).
    rewrite !attr_of_saved_id, Hd1, Hd2.
    cbn [db saved_world with_heap with_db db_after_subscription
         db_after_recipient db_after_save insert_subscription insert_recipient
         insert_user_profile user_profile_seq].
    by rewrite Hd1.
Qed.

(** X14: without a source profile, the profile create_user returns
    takes its language and its 24-hour setting from the realm and its
    timezone from the argument; its tutorial status is TUTORIAL_WAITING
    and enter_sends is off, as create_user passes neither on. *)
Theorem create_user_realm_defaults (w : World) (user_profile : loc) (w' : World) :
  create_user email password realm full_name short_name active is_realm_admin
    bot_type bot_owner tos_version timezone avatar_source is_mirror_dummy
    default_sending_stream default_events_register_stream
    default_all_public_streams None w = (Return user_profile, w') ->
  attr_of w' user_profile "default_language" = Some (VStr (default_language realm))
  /\ attr_of w' user_profile "twenty_four_hour_time"
     = Some (VBool (default_twenty_four_hour_time realm))
  /\ attr_of w' user_profile "timezone" = Some (VStr timezone)
  /\ attr_of w' user_profile "tutorial_status" = Some (VStr TUTORIAL_WAITING)
  /\ attr_of w' user_profile "enter_sends" = Some (VBool false).
Proof.
  intros Hrun.
  assert (Hattr : forall n, n ≠ "id" ->
            attr_of w' user_profile n =
            prepared_profile email password realm full_name short_name active
              is_realm_admin bot_type bot_owner tos_version timezone
              avatar_source is_mirror_dummy default_sending_stream
              default_events_register_stream default_all_public_streams
              (clock w) (api_key_of w) !! n).
  { intros n Hn.
    exact (create_user_keeps_attr _ _ _ _ _ _ _ _ _ _ _ _ _ _ _ _ _ _ _ _ n
             Hrun Hn (or_introl eq_refl)). }
  rewrite !Hattr by done.
  unfold prepared_profile, created_profile.
  destruct default_all_public_streams as [flag|].
  all: repeat split.
  all: repeat (rewrite lookup_insert_ne by done).
  all: try (rewrite lookup_insert_eq; reflexivity).
  all: rewrite lookup_union_l'; [reflexivity | eexists; reflexivity].
Qed.

End FurtherCalls.

End FurtherProperties.

(** ** The worked instance, continued *)

Lemma b64encode_alphanumeric_collision_witness :
  exists p1 p2 : list byte,
    length p1 = 24%nat /\ length p2 = 24%nat /\ p1 ≠ p2
    /\ b64encode p1 "a" "b" = b64encode p2 "a" "b".
Proof.
  apply (b64encode_alphanumeric_collision "a" "b"). reflexivity.
Defined.

Lemma copy_user_settings_idempotent_witness :
  let w1 := (@copy_user_settings example_models 1%positive 2%positive
               two_profiles).2 in
  @copy_user_settings example_models 1%positive 2%positive w1 = (Return tt, w1).
Proof.
  apply (copy_user_settings_idempotent (models := example_models)
           1%positive 2%positive two_profiles
           (@copy_user_settings example_models 1%positive 2%positive
              two_profiles).2).
  apply run_returns. vm_compute. reflexivity.
Defined.

(** Yorick has no 24-hour setting: Hamlet gets his language and
    timezone, then the call raises. *)
Lemma copy_user_settings_missing_field_witness :
  exists w',
    @copy_user_settings example_models 3%positive 2%positive three_profiles
    = (Raise (AttributeError "twenty_four_hour_time"), w')
    /\ Forall (fun n => attr_of w' 2%positive n
                        = attr_of three_profiles 3%positive n)
         ["default_language"; "timezone"].
Proof.
  apply (copy_user_settings_missing_field (models := example_models)
           3%positive 2%positive ["default_language"; "timezone"]
           ["enable_desktop_notifications"; "enable_sounds"; "full_name"]
           "twenty_four_hour_time" three_profiles).
  - reflexivity.
  - repeat constructor; by eexists.
  - vm_compute. reflexivity.
Defined.

Lemma copy_user_settings_chain_witness :
  let w1 := (@copy_user_settings example_models 1%positive 2%positive
               three_profiles).2 in
  let w2 := (@copy_user_settings example_models 2%positive 3%positive w1).2 in
  attr_of w2 3%positive "timezone" = attr_of three_profiles 1%positive "timezone".
Proof.
  apply (copy_user_settings_chain (models := example_models)
           1%positive 2%positive 3%positive three_profiles
           (@copy_user_settings example_models 1%positive 2%positive
              three_profiles).2
           (@copy_user_settings example_models 2%positive 3%positive
              (@copy_user_settings example_models 1%positive 2%positive
                 three_profiles).2).2).
  - apply run_returns. vm_compute. reflexivity.
  - apply run_returns. vm_compute. reflexivity.
  - right; left. apply (bool_decide_unpack _). vm_compute. exact I.
Defined.

Lemma create_user_profile_active_password_witness :
  exists (user_profile : loc) (w' : World),
    @create_user_profile example_models example_realm "Othello@Zulip.COM"
      (Some "secret") true None "Othello" "othello" None false None
      (Some "") (Some "W") false example_world = (Return user_profile, w')
    /\ attr_of w' user_profile "password"
       = Some (VPassword (make_password (Some "secret")))
    /\ (is_password_usable (make_password (Some "secret")) = true
        <-> Some "secret" ≠ None).
Proof.
  apply (create_user_profile_active_password (models := example_models)
           example_realm "Othello@Zulip.COM" (Some "secret") true None
           "Othello" "othello" None false None (Some "") (Some "W") false
           example_world); reflexivity.
Defined.

Lemma create_user_adds_one_row_each_witness :
  let w' := (example_call true None None (Some 1%positive) example_world).2 in
  let pk := user_profile_seq (db example_world) in
  user_profiles (db example_world) !! pk = None
  /\ user_profiles (db w')
     = <[pk := attrs_of w' 2%positive]> (user_profiles (db example_world))
  /\ recipients (db w')
     = (recipients (db example_world)
        ++ [ {| recipient_id := recipient_seq (db example_world); type_id := pk;
                type := PERSONAL |} ])%list
  /\ subscriptions (db w')
     = (subscriptions (db example_world)
        ++ [ {| subscription_id := subscription_seq (db example_world);
                user_profile_id := pk;
                subscribed_recipient_id := recipient_seq (db example_world) |} ])%list
  /\ user_profile_seq (db w') = pk + 1
  /\ recipient_seq (db w') = recipient_seq (db example_world) + 1
  /\ subscription_seq (db w') = subscription_seq (db example_world) + 1.
Proof.
  apply (create_user_adds_one_row_each (models := example_models)
           "Othello@Zulip.COM" (Some "secret") example_realm "Othello" "othello"
           true false None None None "" "G" false None None None
           (Some 1%positive) example_world 2%positive
           (example_call true None None (Some 1%positive) example_world).2).
  - right. exact example_not_a_setting_id.
  - apply run_returns. vm_compute. reflexivity.
Defined.

(** Iago is as he was after Othello was created from his settings. *)
Lemma create_user_keeps_existing_objects_witness :
  heap (example_call true None None (Some 1%positive) example_world).2
    !! 1%positive
  = heap example_world !! 1%positive.
Proof.
  apply (create_user_keeps_existing_objects (models := example_models)
           "Othello@Zulip.COM" (Some "secret") example_realm "Othello" "othello"
           true false None None None "" "G" false None None None
           (Some 1%positive) example_world 1%positive).
  by eexists.
Defined.

(** Yorick as source profile: nothing is saved. *)
Lemma create_user_incomplete_source_witness :
  exists (m : string) (w' : World),
    example_call true None None (Some 3%positive) three_profiles
    = (Raise (AttributeError m), w')
    /\ m ∈ @copied_names example_models
    /\ attr_of three_profiles 3%positive m = None
    /\ db w' = db three_profiles.
Proof.
  apply (create_user_incomplete_source (models := example_models)
           "Othello@Zulip.COM" (Some "secret") example_realm "Othello" "othello"
           true false None None None "" "G" false None None None
           3%positive three_profiles "enable_sounds").
  - by eexists.
  - apply (bool_decide_unpack _). vm_compute. exact I.
  - vm_compute. reflexivity.
Defined.

Lemma example_has_every_setting (n : string) :
  n ∈ @copied_names example_models ->
  is_Some (attr_of example_world 1%positive n).
Proof.
  intros Hn. cbn in Hn.
  repeat (apply elem_of_cons in Hn as [->|Hn]);
    try (by apply elem_of_nil in Hn); by eexists.
Qed.

Lemma create_user_returns_witness :
  exists (user_profile : loc) (w' : World),
    example_call true None None (Some 1%positive) example_world
    = (Return user_profile, w').
Proof.
  apply (create_user_returns (models := example_models)
           "Othello@Zulip.COM" (Some "secret") example_realm "Othello" "othello"
           true false None None None "" "G" false None None None
           (Some 1%positive) example_world).
  - intros d wr Hu. exact Hu.
  - exact example_sequences_ahead.
  - intros source [= <-]. split; [by eexists|].
    split; [exact example_not_a_setting_id | exact example_has_every_setting].
Defined.

(** Othello, then a second Othello with the same arguments. *)
Lemma create_user_twice_witness :
  let w1 := (example_call true None None (Some 1%positive) example_world).2 in
  let w2 := (example_call true None None None w1).2 in
  2%positive ≠ 3%positive
  /\ exists pk : Z,
       attr_of w1 2%positive "id" = Some (VInt pk)
       /\ attr_of w2 3%positive "id" = Some (VInt (pk + 1)).
Proof.
  apply (create_user_twice (models := example_models)
           "Othello@Zulip.COM" (Some "secret") example_realm "Othello" "othello"
           true false None None None "" "G" false None None None
           (Some 1%positive) example_world 2%positive
           (example_call true None None (Some 1%positive) example_world).2
           "Othello@Zulip.COM" (Some "secret") example_realm "Othello" "othello"
           true false None None None "" "G" false None None None None
           3%positive
           (example_call true None None None
              (example_call true None None (Some 1%positive) example_world).2).2).
  - exact example_not_a_setting_id.
  - apply run_returns. vm_compute. reflexivity.
  - apply run_returns. vm_compute. reflexivity.
Defined.

Lemma create_user_keeps_sequences_ahead_witness :
  sequences_ahead
    (db (example_call true None None (Some 1%positive) example_world).2).
Proof.
  apply (create_user_keeps_sequences_ahead (models := example_models)
           "Othello@Zulip.COM" (Some "secret") example_realm "Othello" "othello"
           true false None None None "" "G" false None None None
           (Some 1%positive) example_world (Return 2%positive)
           (example_call true None None (Some 1%positive) example_world).2).
  - right. exact example_not_a_setting_id.
  - exact example_sequences_ahead.
  - apply run_returns. vm_compute. reflexivity.
Defined.

Lemma create_user_realm_defaults_witness :
  let w' := (example_call true None None None example_world).2 in
  attr_of w' 2%positive "default_language"
  = Some (VStr (default_language example_realm))
  /\ attr_of w' 2%positive "twenty_four_hour_time"
     = Some (VBool (default_twenty_four_hour_time example_realm))
  /\ attr_of w' 2%positive "timezone" = Some (VStr "")
  /\ attr_of w' 2%positive "tutorial_status"
     = Some (VStr (@TUTORIAL_WAITING example_models))
  /\ attr_of w' 2%positive "enter_sends" = Some (VBool false).
Proof.
  apply (create_user_realm_defaults (models := example_models)
           "Othello@Zulip.COM" (Some "secret") example_realm "Othello" "othello"
           true false None None None "" "G" false None None None
           example_world 2%positive
           (example_call true None None None example_world).2).
  apply run_returns. vm_compute. reflexivity.
Defined.

(** * Writes that precede a rejected one *)

Section RejectedWrites.
Context {models : Models}.
Variables (email : string) (password : option string) (realm : Realm)
  (full_name short_name : string) (active : bool) (is_realm_admin : bool)
  (bot_type : option Z) (bot_owner : option loc) (tos_version : option string)
  (timezone : string) (avatar_source : string) (is_mirror_dummy : bool)
  (default_sending_stream default_events_register_stream : option loc)
  (default_all_public_streams : option bool).

(** C3, as the code has it: create_user undoes nothing. Let w2 be the
    world in which create_user reaches user_profile.save(), pk the next
    primary key, and let the save be accepted. If the Recipient is then
    rejected, the call raises and the database is the one before the
    call with the profile row added under pk. If the Recipient is
    accepted and the Subscription rejected, the call raises and the
    database holds both the profile row and the personal Recipient. *)
Theorem create_user_keeps_writes_before_rejected_one
    (source_profile : option loc) (w w2 : World) :
  let l := fresh (dom (heap w)) in
  let pk := user_profile_seq (db w) in
  let saved := insert_user_profile pk (saved_row l w2) (db w) in
  let with_recipient := insert_recipient (personal_recipient (db w)) saved in
  source_profile = None \/ not_a_setting "id" ->
  (match source_profile with
   | Some source => copy_user_settings source l
   | None => mret tt
   end)
    (prepared_world
       (prepared_profile email password realm full_name short_name active
          is_realm_admin bot_type bot_owner tos_version timezone avatar_source
          is_mirror_dummy default_sending_stream default_events_register_stream
          default_all_public_streams (clock w) (api_key_of w)) w)
  = (Return tt, w2) ->
  constraints_hold (db w) (InsertUserProfile (attrs_of w2 l)) = true ->
  user_profiles (db w) !! pk = None ->
  (constraints_hold saved (InsertRecipient pk PERSONAL) = false ->
   exists w',
     create_user email password realm full_name short_name active
       is_realm_admin bot_type bot_owner tos_version timezone avatar_source
       is_mirror_dummy default_sending_stream default_events_register_stream
       default_all_public_streams source_profile w = (Raise IntegrityError, w')
     /\ db w' = saved
     /\ user_profiles (db w') !! pk = Some (saved_row l w2)
     /\ saved_row l w2 !! "id" = Some (VInt pk)
     /\ recipients (db w') = recipients (db w)
     /\ subscriptions (db w') = subscriptions (db w))
  /\ (constraints_hold saved (InsertRecipient pk PERSONAL) = true ->
      constraints_hold with_recipient
        (InsertSubscription pk (recipient_seq (db w))) = false ->
      exists w',
        create_user email password realm full_name short_name active
          is_realm_admin bot_type bot_owner tos_version timezone avatar_source
          is_mirror_dummy default_sending_stream default_events_register_stream
          default_all_public_streams source_profile w = (Raise IntegrityError, w')
        /\ db w' = with_recipient
        /\ user_profiles (db w') !! pk = Some (saved_row l w2)
        /\ recipients (db w')
           = (recipients (db w)
              ++ [ {| recipient_id := recipient_seq (db w); type_id := pk;
                      type := PERSONAL |} ])%list
        /\ subscriptions (db w') = subscriptions (db w)).
Proof.
  intros l pk saved with_recipient Hid Hov Hsave Hfree.
  assert (Hd : db w2 = db w).
  { by destruct (overlay_frame _ _ _ _ _ Hov) as (Hd & _). }
  assert (Hpk : attr_of w2 l "id" = Some VNone).
  { assert (Hn : source_profile = None
                 \/ ("id" ≠ "full_name" /\ not_a_setting "id")).
    { destruct Hid as [->|?]; [by left | right; by split]. }
    rewrite (overlay_keeps _ _ _ _ _ _ Hn Hov).
    unfold attr_of, l. rewrite attrs_of_prepared.
    apply prepared_profile_lookup. }
  assert (Hsaved : db_after_save l w2 = saved).
  { unfold db_after_save, saved, pk. by rewrite Hd. }
  assert (Hwith : db_after_recipient l w2 = with_recipient).
  { unfold db_after_recipient, with_recipient. by rewrite Hsaved, Hd. }
  assert (Hrow : saved_row l w2 !! "id" = Some (VInt pk)).
  { unfold saved_row, pk. rewrite Hd. apply lookup_insert_eq. }
  assert (Hrun : create_user email password realm full_name short_name active
            is_realm_admin bot_type bot_owner tos_version timezone avatar_source
            is_mirror_dummy default_sending_stream default_events_register_stream
            default_all_public_streams source_profile w =
          if negb (constraints_hold saved (InsertRecipient pk PERSONAL))
          then (Raise IntegrityError, saved_world l saved w2)
          else if negb (constraints_hold with_recipient
                          (InsertSubscription pk (recipient_seq (db w))))
          then (Raise IntegrityError, saved_world l with_recipient w2)
          else (Return l, saved_world l (db_after_subscription l w2) w2)).
  { rewrite create_user_unfold. fold l.
    rewrite (bind_returns _ _ _ _ _ Hov), (persist_run _ _ Hpk).
    rewrite Hsaved, Hwith, Hd. fold pk.
    rewrite Hsave, (bool_decide_eq_true_2 _ Hfree). reflexivity. }
  split.
  - intros Hrej. rewrite Hrej in Hrun. cbn [negb] in Hrun.
    exists (saved_world l saved w2). split; [exact Hrun|].
    cbn [db saved_world with_heap with_db].
    split; [reflexivity|]. split; [apply lookup_insert_eq|].
    split; [exact Hrow|]. by split.
  - intros Hacc Hrej. rewrite Hacc, Hrej in Hrun. cbn [negb] in Hrun.
    exists (saved_world l with_recipient w2). split; [exact Hrun|].
    cbn [db saved_world with_heap with_db].
    split; [reflexivity|]. split; [apply lookup_insert_eq|]. by split.
Qed.

End RejectedWrites.

(** With a personal Recipient left over for the next primary key, the
    save is accepted and the Recipient rejected. *)
Lemma create_user_keeps_writes_before_rejected_one_witness :
  let l := fresh (dom (heap stale_world)) in
  let pk := user_profile_seq (db stale_world) in
  let saved := insert_user_profile pk (saved_row l stale_prepared)
                 (db stale_world) in
  exists w',
    example_call true None None None stale_world = (Raise IntegrityError, w')
    /\ db w' = saved
    /\ user_profiles (db w') !! pk = Some (saved_row l stale_prepared)
    /\ saved_row l stale_prepared !! "id" = Some (VInt pk)
    /\ recipients (db w') = recipients (db stale_world)
    /\ subscriptions (db w') = subscriptions (db stale_world).
Proof.
  pose proof (create_user_keeps_writes_before_rejected_one
                (models := example_models)
                "Othello@Zulip.COM" (Some "secret") example_realm "Othello"
                "othello" true false None None None "" "G" false None None None
                None stale_world stale_prepared) as Hwrites.
  cbv zeta in Hwrites.
  apply Hwrites.
  - left. reflexivity.
  - reflexivity.
  - vm_compute. reflexivity.
  - vm_compute. reflexivity.
  - vm_compute. reflexivity.
Defined.
